(** * Place-Order.py: order-intake handler of Secure-SES-Order-Flow

    A shallow embedding of [src/lambda/Place-Order.py]:
    - the pydantic models [CartItem], [Cart], [OrderRequest] and the
      field-by-field validation pydantic runs when FastAPI parses the body;
    - [PHONE_PATTERN] as a set-of-matches regular-expression matcher;
    - [validate_business_hours], [is_domain_real], [verify_turnstile_token],
      [send_order_emails] and the endpoint [process_order].

    The outside world (clock, uuid4, Cloudflare, DNS, the disposable-domain
    blocklist, SES, the email syntax validator of [EmailStr]) is an explicit
    environment record, so every effect of the handler is an input or an
    entry of the returned call trace.  Python floats are Rocq's primitive
    IEEE-754 binary64 floats.  Strings are ASCII strings. *)

From Stdlib Require Import Bool ZArith List String Ascii Lia QArith Qabs.
From Stdlib Require Import Floats DecimalString.
Import ListNotations.

Open Scope string_scope.
Open Scope bool_scope.

(* ================================================================== *)
(** ** Python helpers *)

Definition ascii_between (lo hi c : ascii) : bool :=
  (Nat.leb (nat_of_ascii lo) (nat_of_ascii c)) &&
  (Nat.leb (nat_of_ascii c) (nat_of_ascii hi)).

(** [str.lower] / [str.upper] on ASCII characters. *)
Definition char_lower (c : ascii) : ascii :=
  if ascii_between "A" "Z" c then ascii_of_nat (nat_of_ascii c + 32) else c.

Definition char_upper (c : ascii) : ascii :=
  if ascii_between "a" "z" c then ascii_of_nat (nat_of_ascii c - 32) else c.

Fixpoint str_map (f : ascii -> ascii) (s : string) : string :=
  match s with
  | EmptyString => EmptyString
  | String c t => String (f c) (str_map f t)
  end.

Definition py_lower (s : string) : string := str_map char_lower s.
Definition py_upper (s : string) : string := str_map char_upper s.

(** Truthiness of a Python [str]: non-empty. *)
Definition str_truthy (s : string) : bool :=
  match s with EmptyString => false | _ => true end.

(** [s.split(sep)] for a one-character separator. *)
Fixpoint py_split (sep : ascii) (s : string) : list string :=
  match s with
  | EmptyString => [EmptyString]
  | String c t =>
      match py_split sep t with
      | [] => []
      | h :: r =>
          if Ascii.eqb c sep then EmptyString :: h :: r
          else String c h :: r
      end
  end.

(** [l[-1]] on a non-empty list ([py_split] never returns []). *)
Definition py_last (l : list string) : string := last l EmptyString.

(** Substring test [needle in hay]. *)
Fixpoint str_contains (needle hay : string) : bool :=
  match hay with
  | EmptyString => String.eqb needle EmptyString
  | String _ t => String.prefix needle hay || str_contains needle t
  end.

(* ================================================================== *)
(** ** The outside world *)

Inductive weekday :=
  Monday | Tuesday | Wednesday | Thursday | Friday | Saturday | Sunday.

(** [now.strftime('%A')] (C/POSIX locale, as on AWS Lambda). *)
Definition strftime_A (d : weekday) : string :=
  match d with
  | Monday => "Monday" | Tuesday => "Tuesday" | Wednesday => "Wednesday"
  | Thursday => "Thursday" | Friday => "Friday" | Saturday => "Saturday"
  | Sunday => "Sunday"
  end.

Set Warnings "-register-all,-inexact-float".

(** A JSON value as returned by [response.json()]. *)
Inductive jval :=
  | JNull
  | JBool (b : bool)
  | JInt (z : Z)
  | JFloat (f : float)
  | JStr (s : string)
  | JList (l : list jval)
  | JObj (fields : list (string * jval)).

(** Python truthiness of a decoded JSON value. *)
Definition jtruthy (v : jval) : bool :=
  match v with
  | JNull => false
  | JBool b => b
  | JInt z => negb (Z.eqb z 0)
  | JFloat f => negb (PrimFloat.eqb f 0%float)
  | JStr s => str_truthy s
  | JList l => match l with [] => false | _ => true end
  | JObj l => match l with [] => false | _ => true end
  end.

(** What the POST to the siteverify endpoint produces. *)
Inductive turnstile_reply :=
  | TurnstileRaises                      (** httpx error, or [.json()] fails *)
  | TurnstileJson (body : jval).         (** the decoded body *)

(** What [dns.resolver.resolve(domain, rdtype)] produces. *)
Inductive rdtype := MX | NS.

Inductive dns_reply :=
  | DnsRaises                            (** NoAnswer, NXDOMAIN, timeout, ... *)
  | DnsAnswer (records : list string).

Record Env := {
  env_weekday : weekday;                 (** [datetime.now(eastern)] day *)
  env_hour : Z;                          (** [datetime.now(eastern).hour] *)
  env_uuid4 : Z;                         (** [uuid.uuid4()].int, 128 bits *)
  env_turnstile : string -> turnstile_reply;   (** keyed by the token *)
  env_blocklist : string -> bool;        (** [domain in blocklist] *)
  env_resolve : string -> rdtype -> dns_reply;
  env_business_email : string;           (** [BUSINESS_EMAIL] *)
  env_ses_send : string -> string -> bool (** destination, subject: true when
                                              [send_email] returns, false when
                                              it raises *)
}.

(* ================================================================== *)
(** ** Validated models (what pydantic hands to the endpoint) *)

Record CartItem := {
  qty : Z;
  price : float;
  pricePerUnit : float;
  imageUrl : string
}.

(** [items: Dict[str, CartItem]] in insertion order. *)
Record Cart := {
  items : list (string * CartItem);
  totalQty : Z;
  totalPrice : float
}.

Record OrderRequest := {
  phone : string;
  email : string;
  verification : string;                 (** honeypot field *)
  shipping : string;
  order : Cart;
  cf_token : string
}.

(* ================================================================== *)
(** ** validate_business_hours *)

Definition BUSINESS_HOURS_MSG : string :=
  "Our business hours are Mon-Sat 8am-8pm.".

Definition validate_business_hours (env : Env) : bool * string :=
  let current_day := strftime_A (env_weekday env) in
  let current_hour := env_hour env in
  if String.eqb current_day "Sunday" then (false, BUSINESS_HOURS_MSG)
  else if (current_hour <? 8)%Z || (current_hour >=? 20)%Z
  then (false, BUSINESS_HOURS_MSG)
  else (true, "").

(* ================================================================== *)
(** ** Order identifier: [str(uuid.uuid4())[:8].upper()] *)

Definition hex_digit (n : Z) : ascii :=
  if (n <? 10)%Z then ascii_of_nat (48 + Z.to_nat n)
  else ascii_of_nat (87 + Z.to_nat n).

(** [str(u)] is the 128-bit value in 32 lower-case hex digits (with
    hyphens after the 8th); its first 8 characters are the top 32 bits. *)
Definition uuid_str_prefix8 (u : Z) : string :=
  fold_right String EmptyString
    (map (fun i => hex_digit (Z.land (Z.shiftr u (4 * (31 - Z.of_nat i))) 15))
         (seq 0 8)).

Definition make_order_id (u : Z) : string := py_upper (uuid_str_prefix8 u).

(* ================================================================== *)
(** ** Email templates

    The f-strings of [create_product_html], [create_order_html] and
    [create_customer_confirmation_html], character for character.  In the
    template text a backquote stands for the double quote (the templates
    hold no backquote of their own); [tmpl] puts the double quotes back.
    Strings are the UTF-8 bytes SES is sent ([Charset: UTF-8]). *)

Definition DQ : ascii := ascii_of_nat 34.

Definition tmpl (s : string) : string :=
  str_map (fun c => if Ascii.eqb c "`"%char then DQ else c) s.

(** [str(n)] for a Python int. *)
Definition py_str_int (n : Z) : string := NilZero.string_of_int (Z.to_int n).

(** [f'{v}'] for a value that is a [str] or [None]. *)
Definition py_str_opt (v : option string) : string :=
  match v with Some s => s | None => "None" end.

(** [num / den] rounded to the nearest integer, ties to even ([den > 0]). *)
Definition round_half_even_div (num den : Z) : Z :=
  let q := (num / den)%Z in
  let r := (num mod den)%Z in
  if (2 * r >? den)%Z then (q + 1)%Z
  else if (2 * r =? den)%Z then (if Z.odd q then (q + 1)%Z else q)
  else q.

(** [m * 2^e * 100] rounded to an integer. *)
Definition scaled_cents (m : positive) (e : Z) : Z :=
  if (0 <=? e)%Z then (Zpos m * 2 ^ e * 100)%Z
  else round_half_even_div (Zpos m * 100) (2 ^ (- e)).

Definition pad2 (n : Z) : string :=
  if (n <? 10)%Z then "0" ++ py_str_int n else py_str_int n.

(** [format(x, '.2f')]: the exact binary value rounded to two decimals,
    ties to even; the sign is kept, also on a zero ([-0.00]). *)
Definition py_format_2f (x : float) : string :=
  match Prim2SF x with
  | S754_zero s => if s then "-0.00" else "0.00"
  | S754_infinity s => if s then "-inf" else "inf"
  | S754_nan => "nan"
  | S754_finite s m e =>
      let n := scaled_cents m e in
      (if s then "-" else "") ++ py_str_int (n / 100) ++ "." ++ pad2 (n mod 100)
  end.

Definition create_product_html (name : string) (price : float) (image_url : string)
    (qty : Z) : string :=
  tmpl "
    <table role=`presentation` width=`100%` cellspacing=`0` cellpadding=`0` style=`margin: 16px 0; border-bottom: 1px solid #e0e0e0;`>
        <tr>
            <td style=`width: 80px; padding-bottom: 16px; vertical-align: top;`>
                <img src=`"
  ++ image_url
  ++ tmpl "` width=`80` height=`80` style=`display: block; object-fit: contain; border-radius: 4px; border: 1px solid #f0f0f0;` alt=`"
  ++ name
  ++ tmpl "`>
            </td>
            
            <td style=`padding: 0 12px 16px 12px; vertical-align: top;`>
                <h4 style=`margin: 0 0 4px 0; font-size: 16px; font-weight: 600; color: #333;`>"
  ++ name
  ++ tmpl "</h4>
                <p style=`margin: 0; font-size: 14px; font-weight: 600; color: #2e7d32;`>$"
  ++ py_format_2f price
  ++ tmpl "</p>
            </td>
            
            <td style=`width: 60px; padding-bottom: 16px; vertical-align: top; text-align: right;`>
                <span style=`font-size: 14px; color: #666; font-weight: bold;`>Qty: "
  ++ py_str_int qty
  ++ tmpl "</span>
            </td>
        </tr>
    </table>
    ".

Definition create_order_html (products : list string) (total_qty : Z) (total_price : float)
    (email phone shipping order_id : string) : string :=
  let products_html := String.concat "" products in
  tmpl "
    <!DOCTYPE html>
    <html>
    <head>
        <meta charset=`UTF-8`>
        <meta name=`viewport` content=`width=device-width, initial-scale=1.0`>
        <title>New Order</title>
    </head>
    <body style=`margin: 0; padding: 20px; font-family: -apple-system, BlinkMacSystemFont, 'Segoe UI', Roboto, 'Helvetica Neue', Arial, sans-serif; background-color: #f5f5f5;`>
        <div style=`max-width: 600px; margin: 0 auto; background-color: #ffffff; border-radius: 8px; overflow: hidden; box-shadow: 0 2px 8px rgba(0,0,0,0.1);`>
            
            <!-- Header -->
            <div style=`background-color: #2e7d32; padding: 30px 20px; text-align: center;`>
                <h2 style=`margin: 0; font-size: 28px; color: #ffffff; font-weight: 600;`>New Order Received</h2>
                <p style=`margin: 10px 0 0 0; color: #c8e6c9; font-size: 14px;`>Order ID: "
  ++ order_id
  ++ tmpl "</p>
            </div>
            
            <!-- Products Section -->
            <div style=`padding: 30px 20px;`>
                <h3 style=`margin: 0 0 20px 0; font-size: 20px; color: #333; font-weight: 600;`>Order Items</h3>
                "
  ++ products_html
  ++ tmpl "
            </div>
            
            <!-- Total Section -->
            <div style=`margin: 20px; padding: 24px; background-color: #f9f9f9; border-radius: 8px; border: 1px solid #e0e0e0;`>
                <div style=`text-align: center; margin-bottom: 20px;`>
                    <p style=`margin: 0 0 8px 0; font-size: 18px; color: #666;`>"
  ++ py_str_int total_qty
  ++ tmpl " Item"
  ++ (if Z.eqb total_qty 1 then EmptyString else "s")
  ++ tmpl "</p>
                    <p style=`margin: 0; font-size: 24px; font-weight: 700; color: #2e7d32;`>Total: $"
  ++ py_format_2f total_price
  ++ tmpl "</p>
                </div>
                
                <!-- Customer Details -->
                <div style=`padding-top: 20px; border-top: 1px solid #e0e0e0;`>
                    <h4 style=`margin: 0 0 16px 0; font-size: 16px; color: #333; font-weight: 600;`>Customer Information</h4>
                    <table style=`width: 100%; border-collapse: collapse;`>
                        <tr>
                            <td style=`padding: 8px 0; font-weight: 600; color: #666; font-size: 14px; width: 100px;`>Email:</td>
                            <td style=`padding: 8px 0; color: #333; font-size: 14px;`>"
  ++ email
  ++ tmpl "</td>
                        </tr>
                        <tr>
                            <td style=`padding: 8px 0; font-weight: 600; color: #666; font-size: 14px;`>Phone:</td>
                            <td style=`padding: 8px 0; color: #333; font-size: 14px;`>"
  ++ phone
  ++ tmpl "</td>
                        </tr>
                        <tr>
                            <td style=`padding: 8px 0; font-weight: 600; color: #666; font-size: 14px;`>Shipping:</td>
                            <td style=`padding: 8px 0; color: #333; font-size: 14px;`>"
  ++ shipping
  ++ tmpl "</td>
                        </tr>
                    </table>
                </div>
            </div>
            
            <!-- Footer -->
            <div style=`padding: 20px; text-align: center; background-color: #fafafa; border-top: 1px solid #e0e0e0;`>
                <p style=`margin: 0; color: #999; font-size: 12px;`>This is an automated order notification</p>
            </div>
            
        </div>
    </body>
    </html>
    ".

(** [SUPPORT_EMAIL = os.getenv('SUPPORT_EMAIL')]: [None] when unset. *)
Definition create_customer_confirmation_html (SUPPORT_EMAIL : option string)
    (products : list string) (total_qty : Z) (total_price : float)
    (order_id : string) : string :=
  let products_html := String.concat "" products in
  tmpl "
    <!DOCTYPE html>
    <html>
    <head>
        <meta charset=`UTF-8`>
        <meta name=`viewport` content=`width=device-width, initial-scale=1.0`>
        <title>Order Confirmation</title>
    </head>
    <body style=`margin: 0; padding: 20px; font-family: -apple-system, BlinkMacSystemFont, 'Segoe UI', Roboto, 'Helvetica Neue', Arial, sans-serif; background-color: #f5f5f5;`>
        <div style=`max-width: 600px; margin: 0 auto; background-color: #ffffff; border-radius: 8px; overflow: hidden; box-shadow: 0 2px 8px rgba(0,0,0,0.1);`>
            
            <!-- Header -->
            <div style=`background: linear-gradient(135deg, #2e7d32 0%, #43a047 100%); padding: 40px 20px; text-align: center;`>
                <h2 style=`margin: 0; font-size: 28px; color: #ffffff; font-weight: 600;`>Thank You for Your Order! 🎉</h2>
                <p style=`margin: 12px 0 0 0; color: #c8e6c9; font-size: 14px;`>Order ID: "
  ++ order_id
  ++ tmpl "</p>
            </div>
            
            <!-- Products Section -->
            <div style=`padding: 30px 20px;`>
                <h3 style=`margin: 0 0 20px 0; font-size: 20px; color: #333; font-weight: 600; text-align: center;`>Your Order Summary</h3>
                "
  ++ products_html
  ++ tmpl "
            </div>
            
            <!-- Total Section -->
            <div style=`margin: 20px; padding: 24px; background-color: #f9f9f9; border-radius: 8px; border: 2px solid #2e7d32; text-align: center;`>
                <p style=`margin: 0 0 8px 0; font-size: 18px; color: #666;`>"
  ++ py_str_int total_qty
  ++ tmpl " Item"
  ++ (if Z.eqb total_qty 1 then EmptyString else "s")
  ++ tmpl "</p>
                <p style=`margin: 0; font-size: 28px; font-weight: 700; color: #2e7d32;`>Total: $"
  ++ py_format_2f total_price
  ++ tmpl "</p>
            </div>
            
            <!-- Confirmation Message -->
            <div style=`margin: 20px; padding: 24px; background: linear-gradient(135deg, #e8f5e9 0%, #c8e6c9 100%); border-radius: 8px; text-align: center;`>
                <p style=`margin: 0; color: #1b5e20; font-weight: 600; font-size: 16px; line-height: 1.5;`>
                    We've received your order and will contact you soon to confirm delivery details!
                </p>
            </div>
            
            <!-- Footer -->
            <div style=`padding: 24px 20px; text-align: center; background-color: #fafafa; border-top: 1px solid #e0e0e0;`>
                <p style=`margin: 0 0 8px 0; color: #666; font-size: 14px;`>Questions about your order?</p>
                <p style=`margin: 0; color: #2e7d32; font-size: 14px; font-weight: 600;`>Contact us at $"
  ++ py_str_opt SUPPORT_EMAIL
  ++ tmpl "</p>
            </div>
            
        </div>
    </body>
    </html>
    ".

(** The bodies [send_order_emails] builds before its two sends. *)
Definition product_html_list (order_data : OrderRequest) : list string :=
  map (fun p => create_product_html (fst p) (price (snd p)) (imageUrl (snd p)) (qty (snd p)))
      (items (order order_data)).

Definition owner_email_html (order_data : OrderRequest) (order_id : string) : string :=
  create_order_html (product_html_list order_data) (totalQty (order order_data))
    (totalPrice (order order_data)) (email order_data) (phone order_data)
    (shipping order_data) order_id.

Definition customer_email_html (SUPPORT_EMAIL : option string) (order_data : OrderRequest)
    (order_id : string) : string :=
  create_customer_confirmation_html SUPPORT_EMAIL (product_html_list order_data)
    (totalQty (order order_data)) (totalPrice (order order_data)) order_id.

(** [needle] occurs in [hay]. *)
Definition substring (needle hay : string) : Prop :=
  exists a b, hay = a ++ needle ++ b.

(** [hay] starts with [needle]. *)
Definition is_prefix (needle hay : string) : Prop :=
  exists b, hay = needle ++ b.

(** [hay] ends with [needle]. *)
Definition is_suffix (needle hay : string) : Prop :=
  exists a, hay = a ++ needle.

(* ================================================================== *)
(** ** is_domain_real *)

Definition is_domain_real (env : Env) (email : string) : bool :=
  let domain := py_last (py_split "@" email) in
  if env_blocklist env domain then false
  else
    match env_resolve env domain MX with
    | DnsRaises => false                 (* caught by the except clause *)
    | DnsAnswer [] => false              (* if not mx_records *)
    | DnsAnswer _ =>
        match env_resolve env domain NS with
        | DnsRaises => false
        | DnsAnswer [] => false
        | DnsAnswer _ => true
        end
    end.

(* ================================================================== *)
(** ** send_order_emails *)

(** One [ses_client.send_email] call: destination, subject, and whether it
    returned (true) or raised (false). *)
Record ses_call := { ses_dest : string; ses_subject : string; ses_ok : bool }.

Definition send_order_emails (env : Env) (order_data : OrderRequest)
    (order_id : string) : bool * list ses_call :=
  let owner_subject := "New Order Received - " ++ order_id in
  let owner_dest := env_business_email env in
  if env_ses_send env owner_dest owner_subject then
    let cust_subject := "Order Confirmation - " ++ order_id in
    let cust_dest := py_lower (email order_data) in
    if env_ses_send env cust_dest cust_subject then
      (true, [ {| ses_dest := owner_dest; ses_subject := owner_subject; ses_ok := true |};
               {| ses_dest := cust_dest; ses_subject := cust_subject; ses_ok := true |} ])
    else
      (false, [ {| ses_dest := owner_dest; ses_subject := owner_subject; ses_ok := true |};
                {| ses_dest := cust_dest; ses_subject := cust_subject; ses_ok := false |} ])
  else
    (false, [ {| ses_dest := owner_dest; ses_subject := owner_subject; ses_ok := false |} ]).

(* ================================================================== *)
(** ** verify_turnstile_token *)

(** [dict.get] on the decoded body: [json.loads] keeps the last duplicate. *)
Fixpoint jlookup (k : string) (fields : list (string * jval)) : option jval :=
  match fields with
  | [] => None
  | (k', v) :: t =>
      match jlookup k t with
      | Some w => Some w
      | None => if String.eqb k k' then Some v else None
      end
  end.

(** [None]: the coroutine raises (network error, undecodable body, or a
    decoded body that is not a dict, whose [.get] raises AttributeError). *)
Definition verify_turnstile_token (env : Env) (token : string) : option jval :=
  match env_turnstile env token with
  | TurnstileRaises => None
  | TurnstileJson (JObj fields) =>
      Some (match jlookup "success" fields with
            | Some v => v
            | None => JBool false
            end)
  | TurnstileJson _ => None
  end.

(* ================================================================== *)
(** ** process_order *)

Inductive body :=
  | OrderPlaced (success : bool) (orderId : string) (message : string)
  | Detail (detail : string).             (** [HTTPException(detail=...)] *)

Record response := { status_code : Z; content : body }.

Definition http_error (code : Z) (detail : string) : response :=
  {| status_code := code; content := Detail detail |}.

Definition order_placed (order_id : string) : response :=
  {| status_code := 200;
     content := OrderPlaced true order_id "Order placed successfully" |}.

Definition SECURITY_MSG : string := "Security check failed".
Definition INVALID_EMAIL_MSG : string := "Please provide a valid email address.".
Definition SEND_FAILED_MSG : string :=
  "Failed to send order confirmation. Please try again.".
Definition NETWORK_MSG : string := "Network error. Please try again.".

(** The endpoint.  [request.client.host] is always present behind the
    Mangum adapter, and [print] does not raise on ASCII text; every other
    exception of the body is the [except Exception] branch (500). *)
Definition process_order (env : Env) (order_request : OrderRequest)
    : response * list ses_call :=
  let '(is_valid_hours, hours_error) := validate_business_hours env in
  if negb is_valid_hours then (http_error 400 hours_error, [])
  else
    let order_id := make_order_id (env_uuid4 env) in
    if str_truthy (verification order_request) then (order_placed order_id, [])
    else
      match verify_turnstile_token env (cf_token order_request) with
      | None => (http_error 500 NETWORK_MSG, [])
      | Some is_human =>
          if negb (jtruthy is_human) then (http_error 400 SECURITY_MSG, [])
          else if negb (is_domain_real env (py_lower (email order_request)))
          then (http_error 400 INVALID_EMAIL_MSG, [])
          else
            let '(email_sent, calls) :=
              send_order_emails env order_request order_id in
            if negb email_sent then (http_error 500 SEND_FAILED_MSG, calls)
            else (order_placed order_id, calls)
      end.

(* ================================================================== *)
(** ** PHONE_PATTERN

    [re.compile(r'^(\+?1 *[ -.])?(\d{3}) *[ .-]?(\d{3}) *[ .-]?(\d{4}) *$')]
    used through [.match].  A matcher maps the input to the list of every
    remainder a match of the pattern may leave; [re.match] succeeds iff the
    backtracking search finds one, i.e. iff that list has an element on
    which [$] holds. *)

Definition matcher := list ascii -> list (list ascii).

(** One character of a class. *)
Definition m_class (p : ascii -> bool) : matcher :=
  fun s => match s with
           | c :: t => if p c then [t] else []
           | [] => []
           end.

Definition m_char (c : ascii) : matcher := m_class (Ascii.eqb c).

Definition m_seq (a b : matcher) : matcher := fun s => flat_map b (a s).

(** [a?], greedy. *)
Definition m_opt (a : matcher) : matcher := fun s => (a s ++ [s])%list.

(** [a{n}]. *)
Fixpoint m_rep (n : nat) (a : matcher) : matcher :=
  match n with
  | O => fun s => [s]
  | S k => m_seq a (m_rep k a)
  end.

(** [c*] for a one-character class, greedy. *)
Fixpoint m_star_class (p : ascii -> bool) (s : list ascii) : list (list ascii) :=
  match s with
  | c :: t => if p c then (m_star_class p t ++ [s])%list else [s]
  | [] => [[]]
  end.

Fixpoint m_seqs (l : list matcher) : matcher :=
  match l with
  | [] => fun s => [s]
  | a :: t => m_seq a (m_seqs t)
  end.

(** [$]: end of string, or just before a final newline. *)
Definition m_end (r : list ascii) : bool :=
  match r with
  | [] => true
  | ["010"%char] => true
  | _ => false
  end.

Definition is_digit (c : ascii) : bool := ascii_between "0" "9" c.
Definition is_space (c : ascii) : bool := Ascii.eqb c " ".

(** [[ .-]]: space, dot, hyphen. *)
Definition sep_class (c : ascii) : bool :=
  Ascii.eqb c " " || Ascii.eqb c "." || Ascii.eqb c "-".

(** [[ -.]]: the range from space (0x20) to dot (0x2E). *)
Definition prefix_sep_class (c : ascii) : bool := ascii_between " " "." c.

Definition PHONE_PATTERN : matcher :=
  m_seqs [ m_opt (m_seqs [ m_opt (m_char "+"); m_char "1";
                           m_star_class is_space; m_class prefix_sep_class ]);
           m_rep 3 (m_class is_digit);
           m_star_class is_space; m_opt (m_class sep_class);
           m_rep 3 (m_class is_digit);
           m_star_class is_space; m_opt (m_class sep_class);
           m_rep 4 (m_class is_digit);
           m_star_class is_space ].

Definition phone_match (s : string) : bool :=
  existsb m_end (PHONE_PATTERN (list_ascii_of_string s)).

(* ================================================================== *)
(** ** Pydantic field validation

    pydantic validates the fields of a model in declaration order.  A field
    is first converted to its type and checked against its [Field(...)]
    constraint, then its [@validator]s run in declaration order; the first
    failure of a field is that field's only error, and the field is then
    absent from [values].  The errors of all fields are collected and
    raised together (FastAPI turns them into one 422 response). *)

(** A raw body field: absent, of a type pydantic cannot convert, or a
    value already converted to the field's type. *)
Inductive raw (A : Type) :=
  | RMissing
  | RWrongType
  | RVal (a : A).
Arguments RMissing {A}.
Arguments RWrongType {A}.
Arguments RVal {A} a.

Record err := { loc : list string; msg : string }.

Inductive res (A : Type) :=
  | Ok (a : A)
  | Err (errs : list err).
Arguments Ok {A} a.
Arguments Err {A} errs.

Definition errs_of {A} (x : res A) : list err :=
  match x with Ok _ => [] | Err e => e end.

Definition MISSING_MSG := "field required".
Definition INT_MSG := "value is not a valid integer".
Definition FLOAT_MSG := "value is not a valid float".
Definition STR_MSG := "str type expected".
Definition DICT_MSG := "value is not a valid dict".
Definition EMAIL_MSG := "value is not a valid email address".
Definition GT0_MSG := "ensure this value is greater than 0".
Definition GE0_MSG := "ensure this value is greater than or equal to 0".

(** A check returns [Some message] when it raises. *)
Definition check (A : Type) := A -> option string.

Fixpoint run_checks {A} (l : list string) (cs : list (check A)) (a : A) : res A :=
  match cs with
  | [] => Ok a
  | c :: t =>
      match c a with
      | Some m => Err [ {| loc := l; msg := m |} ]
      | None => run_checks l t a
      end
  end.

Definition validate_field {A} (l : list string) (type_msg : string)
    (constraint : check A) (validators : list (check A)) (r : raw A) : res A :=
  match r with
  | RMissing => Err [ {| loc := l; msg := MISSING_MSG |} ]
  | RWrongType => Err [ {| loc := l; msg := type_msg |} ]
  | RVal a => run_checks l (constraint :: validators) a
  end.

Definition no_constraint {A} : check A := fun _ => None.

(** [Field(gt=0)] on an int, [Field(ge=0)] on an int and on a float
    ([not v >= 0] raises, so NaN is refused). *)
Definition int_gt0 : check Z := fun v => if (v >? 0)%Z then None else Some GT0_MSG.
Definition int_ge0 : check Z := fun v => if (v >=? 0)%Z then None else Some GE0_MSG.
Definition float_ge0 : check float :=
  fun v => if PrimFloat.leb 0%float v then None else Some GE0_MSG.

(** Python (3.12 and later) [sum] of a sequence of floats, started from the
    int [0]: the first item is added to [0], the rest with Neumaier's
    compensated summation, the compensation being added at the end when it
    is non-zero and finite.  ([sum] over no item is the int [0], which
    behaves as [0.0] in [0 - v].) *)
Fixpoint neumaier (f c : float) (xs : list float) : float :=
  match xs with
  | [] => if negb (PrimFloat.eqb c 0%float) && is_finite c
          then PrimFloat.add f c else f
  | x :: t =>
      let s := PrimFloat.add f x in
      let c' := if PrimFloat.leb (PrimFloat.abs x) (PrimFloat.abs f)
                then PrimFloat.add c (PrimFloat.add (PrimFloat.sub f s) x)
                else PrimFloat.add c (PrimFloat.add (PrimFloat.sub x s) f) in
      neumaier s c' t
  end.

Definition py_sum_floats (xs : list float) : float :=
  match xs with
  | [] => 0%float
  | x :: t => neumaier (PrimFloat.add 0%float x) 0%float t
  end.

Fixpoint sum_Z (xs : list Z) : Z :=
  match xs with [] => 0%Z | x :: t => (x + sum_Z t)%Z end.

(** *** CartItem *)

Record RawItem := {
  r_qty : raw Z;
  r_price : raw float;
  r_pricePerUnit : raw float;
  r_imageUrl : raw string
}.

Definition validate_CartItem (l : list string) (r : RawItem) : res CartItem :=
  let q := validate_field (l ++ ["qty"]) INT_MSG int_gt0 [] (r_qty r) in
  let p := validate_field (l ++ ["price"]) FLOAT_MSG float_ge0 [] (r_price r) in
  let u := validate_field (l ++ ["pricePerUnit"]) FLOAT_MSG float_ge0 []
             (r_pricePerUnit r) in
  let i := validate_field (l ++ ["imageUrl"]) STR_MSG no_constraint []
             (r_imageUrl r) in
  match q, p, u, i with
  | Ok q, Ok p, Ok u, Ok i =>
      Ok {| qty := q; price := p; pricePerUnit := u; imageUrl := i |}
  | _, _, _, _ => Err (errs_of q ++ errs_of p ++ errs_of u ++ errs_of i)
  end.

(** [Dict[str, CartItem]]: every value is validated, errors collected. *)
Fixpoint validate_item_list (l : list string) (its : list (string * RawItem))
    : res (list (string * CartItem)) :=
  match its with
  | [] => Ok []
  | (k, ri) :: t =>
      match validate_CartItem (l ++ [k]) ri, validate_item_list l t with
      | Ok it, Ok rest => Ok ((k, it) :: rest)
      | x, y => Err (errs_of x ++ errs_of y)
      end
  end.

Definition validate_items (l : list string) (r : raw (list (string * RawItem)))
    : res (list (string * CartItem)) :=
  match r with
  | RMissing => Err [ {| loc := l; msg := MISSING_MSG |} ]
  | RWrongType => Err [ {| loc := l; msg := DICT_MSG |} ]
  | RVal its => validate_item_list l its
  end.

(** *** Cart *)

Record RawCart := {
  r_items : raw (list (string * RawItem));
  r_totalQty : raw Z;
  r_totalPrice : raw float
}.

Definition MIN_ORDER_MSG := "Our minimum order size for delivery is 3 items.".
Definition PRICE_MISMATCH_MSG := "Total price does not match sum of item prices".
Definition QTY_MISMATCH_MSG :=
  "Total quantity does not match sum of item quantities".

(** [values.get('items')]: present only when [items] validated. *)
Definition validate_min_quantity : check Z :=
  fun v => if (v <? 3)%Z then Some MIN_ORDER_MSG else None.

Definition validate_total_price (values_items : option (list (string * CartItem)))
    : check float :=
  fun v =>
    match values_items with
    | Some its =>
        let calculated_total := py_sum_floats (map (fun p => price (snd p)) its) in
        if PrimFloat.ltb 0.01%float
             (PrimFloat.abs (PrimFloat.sub calculated_total v))
        then Some PRICE_MISMATCH_MSG else None
    | None => None
    end.

Definition validate_total_qty (values_items : option (list (string * CartItem)))
    : check Z :=
  fun v =>
    match values_items with
    | Some its =>
        let calculated_qty := sum_Z (map (fun p => qty (snd p)) its) in
        if negb (Z.eqb calculated_qty v) then Some QTY_MISMATCH_MSG else None
    | None => None
    end.

Definition validate_Cart_fields (l : list string) (r : RawCart) : res Cart :=
  let it := validate_items (l ++ ["items"]) (r_items r) in
  let values_items := match it with Ok x => Some x | Err _ => None end in
  let q := validate_field (l ++ ["totalQty"]) INT_MSG int_ge0
             [validate_min_quantity; validate_total_qty values_items]
             (r_totalQty r) in
  let p := validate_field (l ++ ["totalPrice"]) FLOAT_MSG float_ge0
             [validate_total_price values_items] (r_totalPrice r) in
  match it, q, p with
  | Ok it, Ok q, Ok p => Ok {| items := it; totalQty := q; totalPrice := p |}
  | _, _, _ => Err (errs_of it ++ errs_of q ++ errs_of p)
  end.

(** The [order] field of the request: a nested model. *)
Definition validate_Cart (l : list string) (r : raw RawCart) : res Cart :=
  match r with
  | RMissing => Err [ {| loc := l; msg := MISSING_MSG |} ]
  | RWrongType => Err [ {| loc := l; msg := DICT_MSG |} ]
  | RVal c => validate_Cart_fields l c
  end.

(** *** OrderRequest *)

Record RawOrderRequest := {
  r_phone : raw string;
  r_email : raw string;
  r_verification : raw string;
  r_shipping : raw string;
  r_order : raw RawCart;
  r_cf_token : raw string
}.

Definition PHONE_MSG := "Please enter a valid phone number.".

Definition validate_phone_format : check string :=
  fun v => if negb (phone_match v) then Some PHONE_MSG else None.

(** [EmailStr]: [email_ok] is the syntax check and normalisation done by
    the email-validator package ([None] when it refuses the address). *)
Definition validate_email (email_ok : string -> option string) (l : list string)
    (r : raw string) : res string :=
  match r with
  | RMissing => Err [ {| loc := l; msg := MISSING_MSG |} ]
  | RWrongType => Err [ {| loc := l; msg := STR_MSG |} ]
  | RVal s =>
      match email_ok s with
      | Some e => Ok e
      | None => Err [ {| loc := l; msg := EMAIL_MSG |} ]
      end
  end.

Definition validate_phone_field (r : RawOrderRequest) : res string :=
  validate_field ["phone"] STR_MSG no_constraint [validate_phone_format] (r_phone r).

Definition validate_email_field (email_ok : string -> option string)
    (r : RawOrderRequest) : res string :=
  validate_email email_ok ["email"] (r_email r).

(** A plain [str] field. *)
Definition validate_str_field (f : string) (v : raw string) : res string :=
  validate_field [f] STR_MSG no_constraint [] v.

Definition validate_order_field (r : RawOrderRequest) : res Cart :=
  validate_Cart ["order"] (r_order r).

Definition validate_OrderRequest (email_ok : string -> option string)
    (r : RawOrderRequest) : res OrderRequest :=
  let ph := validate_phone_field r in
  let em := validate_email_field email_ok r in
  let ve := validate_str_field "verification" (r_verification r) in
  let sh := validate_str_field "shipping" (r_shipping r) in
  let od := validate_order_field r in
  let cf := validate_str_field "cf_token" (r_cf_token r) in
  match ph, em, ve, sh, od, cf with
  | Ok ph, Ok em, Ok ve, Ok sh, Ok od, Ok cf =>
      Ok {| phone := ph; email := em; verification := ve; shipping := sh;
            order := od; cf_token := cf |}
  | _, _, _, _, _, _ =>
      Err (errs_of ph ++ errs_of em ++ errs_of ve ++ errs_of sh
           ++ errs_of od ++ errs_of cf)
  end.

(* ================================================================== *)
(** ** Predicates used by the statements *)

(** Mon-Sat, 08:00 inclusive to 20:00 exclusive. *)
Definition within_business_hours (env : Env) : Prop :=
  env_weekday env <> Sunday /\ (8 <= env_hour env < 20)%Z.

(** An 8-character token of digits and upper-case letters A-F. *)
Definition order_id_ok (s : string) : bool :=
  Nat.eqb (String.length s) 8 &&
  forallb (fun c => is_digit c || ascii_between "A" "F" c) (list_ascii_of_string s).

(** A DNS lookup that the code counts as a failure. *)
Definition dns_fails (d : dns_reply) : bool :=
  match d with
  | DnsRaises => true
  | DnsAnswer [] => true
  | DnsAnswer _ => false
  end.

(** The domain [is_domain_real] extracts from the lowered address. *)
Definition email_domain (e : string) : string := py_last (py_split "@" e).

(** Two characters that are equal or the two cases of one ASCII letter. *)
Definition case_variant (x y : ascii) : bool :=
  Ascii.eqb x y
  || (ascii_between "A" "Z" x && Ascii.eqb y (char_lower x))
  || (ascii_between "a" "z" x && Ascii.eqb y (char_upper x)).

Fixpoint differ_only_in_case (a b : string) : bool :=
  match a, b with
  | EmptyString, EmptyString => true
  | String x a', String y b' => case_variant x y && differ_only_in_case a' b'
  | _, _ => false
  end.

(** [order_request] with another [email]. *)
Definition with_email (r : OrderRequest) (e : string) : OrderRequest :=
  {| phone := phone r; email := e; verification := verification r;
     shipping := shipping r; order := order r; cf_token := cf_token r |}.

(** A validation result that failed. *)
Definition fails {A} (x : res A) : bool :=
  match x with Err _ => true | Ok _ => false end.

(** How many reported errors sit at location [l]. *)
Definition count_loc (l : list string) (errs : list err) : nat :=
  List.length
    (filter (fun e => if list_eq_dec string_dec (loc e) l then true else false) errs).

(** The errors reported at location [l]. *)
Definition errs_at (l : list string) (errs : list err) : list err :=
  filter (fun e => if list_eq_dec string_dec (loc e) l then true else false) errs.

(** The reading "only the first failed check is reported": the checks of a
    field, in declaration order after its type check, and the message of
    the first one that fails. *)
Fixpoint first_failed {A} (cs : list (check A)) (a : A) : option string :=
  match cs with
  | [] => None
  | c :: t => match c a with Some m => Some m | None => first_failed t a end
  end.

Definition first_error {A} (type_msg : string) (cs : list (check A)) (r : raw A)
    : option string :=
  match r with
  | RMissing => Some MISSING_MSG
  | RWrongType => Some type_msg
  | RVal a => first_failed cs a
  end.

(** That message as the field's error list. *)
Definition error_list (l : list string) (m : option string) : list err :=
  match m with Some m => [ {| loc := l; msg := m |} ] | None => [] end.

(** [values.get('items')] of the request's cart. *)
Definition cart_values_items (rc : RawCart) : option (list (string * CartItem)) :=
  match validate_items ["order"; "items"] (r_items rc) with
  | Ok x => Some x
  | Err _ => None
  end.

(** The [str]-typed fields of [OrderRequest] with their results. *)
Definition scalar_fields (email_ok : string -> option string) (r : RawOrderRequest)
    : list (string * res string) :=
  [ ("phone", validate_phone_field r);
    ("email", validate_email_field email_ok r);
    ("verification", validate_str_field "verification" (r_verification r));
    ("shipping", validate_str_field "shipping" (r_shipping r));
    ("cf_token", validate_str_field "cf_token" (r_cf_token r)) ].

(* ================================================================== *)
(** ** Sample inputs *)

(** An environment: clock, a Cloudflare reply, and the one destination
    address for which [send_email] raises. *)
Definition sample_env (d : weekday) (h : Z) (ts : turnstile_reply)
    (ses_fails_for : string) : Env :=
  {| env_weekday := d;
     env_hour := h;
     env_uuid4 := 0x9f1c2d3e4b5a69788796a5b4c3d2e1f0%Z;
     env_turnstile := fun _ => ts;
     env_blocklist := fun dom => String.eqb dom "mailinator.com";
     env_resolve := fun dom _ =>
       if String.eqb dom "example.com" then DnsAnswer ["mx1.example.com"]
       else DnsRaises;
     env_business_email := "owner@shop.example";
     env_ses_send := fun dest _ => negb (String.eqb dest ses_fails_for) |}.

Definition human_reply : turnstile_reply :=
  TurnstileJson (JObj [("success", JBool true)]).

(** The email-validator stand-in: one [@], non-empty local part. *)
Definition sample_email_ok (s : string) : option string :=
  match py_split "@" s with
  | [String c l; String d dom] => Some s
  | _ => None
  end.

Definition sample_raw_item (q : Z) (p u : float) : RawItem :=
  {| r_qty := RVal q; r_price := RVal p; r_pricePerUnit := RVal u;
     r_imageUrl := RVal "/img/item.png" |}.

Definition sample_raw_cart : RawCart :=
  {| r_items := RVal [("Tomatoes", sample_raw_item 1 10.0 10.0);
                      ("Basil", sample_raw_item 1 5.0 5.0);
                      ("Garlic", sample_raw_item 1 5.0 5.0)];
     r_totalQty := RVal 3%Z;
     r_totalPrice := RVal 20.0%float |}.

Definition sample_raw_request (verif : string) : RawOrderRequest :=
  {| r_phone := RVal "555-123-4567";
     r_email := RVal "Jane.Doe@Example.com";
     r_verification := RVal verif;
     r_shipping := RVal "12 Main St";
     r_order := RVal sample_raw_cart;
     r_cf_token := RVal "tok" |}.

(** The validated request pydantic builds from [sample_raw_request]. *)
Definition sample_request (verif : string) : OrderRequest :=
  match validate_OrderRequest sample_email_ok (sample_raw_request verif) with
  | Ok r => r
  | Err _ => {| phone := ""; email := ""; verification := verif; shipping := "";
                order := {| items := []; totalQty := 0; totalPrice := 0%float |};
                cf_token := "" |}
  end.

(** The phone-number shape, as the (amended) specification words it:
    an optional country prefix, 3 digits, a separator, 3 digits, a
    separator, 4 digits, trailing spaces, and an optional final newline. *)
Definition all_spaces (l : list ascii) : Prop := Forall (fun c => is_space c = true) l.

Definition digit_group (n : nat) (l : list ascii) : Prop :=
  List.length l = n /\ Forall (fun c => is_digit c = true) l.

(** Spaces, then at most one space, dot or hyphen. *)
Definition separator (l : list ascii) : Prop :=
  exists sp o, l = (sp ++ o)%list /\ all_spaces sp /\
    (o = [] \/ exists c, o = [c] /\ sep_class c = true).

(** Nothing, or an optional [+], [1], spaces and one separator character
    accepted by [prefix_sep]. *)
Definition country_prefix (prefix_sep : ascii -> bool) (l : list ascii) : Prop :=
  l = [] \/
  exists plus sp c, l = (plus ++ "1"%char :: sp ++ [c])%list /\
    (plus = [] \/ plus = ["+"%char]) /\ all_spaces sp /\ prefix_sep c = true.

Definition phone_shape (prefix_sep : ascii -> bool) (l : list ascii) : Prop :=
  exists pre d1 g1 d2 g2 d3 tl nl,
    l = (pre ++ d1 ++ g1 ++ d2 ++ g2 ++ d3 ++ tl ++ nl)%list /\
    country_prefix prefix_sep pre /\
    digit_group 3 d1 /\ separator g1 /\ digit_group 3 d2 /\ separator g2 /\
    digit_group 4 d3 /\ all_spaces tl /\ (nl = [] \/ nl = ["010"%char]).

(** The language of a matcher: [m s] lists exactly the remainders [r] of
    the splittings [s = x ++ r] with [x] in [L]. *)
Definition denotes (m : matcher) (L : list ascii -> Prop) : Prop :=
  forall s r, In r (m s) <-> exists x, s = (x ++ r)%list /\ L x.

Fixpoint rep_lang (n : nat) (L : list ascii -> Prop) (x : list ascii) : Prop :=
  match n with
  | O => x = []
  | S k => exists x1 x2, x = (x1 ++ x2)%list /\ L x1 /\ rep_lang k L x2
  end.

(** A failed result carries at least one error. *)
Definition res_good {A} (x : res A) : Prop :=
  match x with Ok _ => True | Err e => e <> [] end.

(** An error located under [l]. *)
Definition under (l : list string) (e : err) : Prop := exists s, loc e = (l ++ s)%list.

Definition blocked_request : OrderRequest :=
  with_email (sample_request "") "Bob@Mailinator.com".

(** The phone-number form in the words of the specification: an optional
    [1] or [+1], then groups of 3, 3 and 4 digits, each gap being any
    combination of spaces, dots and hyphens. *)
Definition spec_gap (l : list ascii) : Prop := Forall (fun c => sep_class c = true) l.

Definition spec_phone_form (l : list ascii) : Prop :=
  exists pre g0 d1 g1 d2 g2 d3,
    l = (pre ++ g0 ++ d1 ++ g1 ++ d2 ++ g2 ++ d3)%list /\
    (pre = [] \/ pre = ["1"%char] \/ pre = ["+"%char; "1"%char]) /\
    spec_gap g0 /\ digit_group 3 d1 /\ spec_gap g1 /\ digit_group 3 d2 /\
    spec_gap g2 /\ digit_group 4 d3.

(** A request body with a malformed phone and no [verification] field. *)
Definition two_violations_request : RawOrderRequest :=
  {| r_phone := RVal "abc";
     r_email := RVal "Jane.Doe@Example.com";
     r_verification := RMissing;
     r_shipping := RVal "12 Main St";
     r_order := RVal sample_raw_cart;
     r_cf_token := RVal "tok" |}.

(** The sample cart with [totalQty = -1]: below 0, below 3, and not the
    sum (3) of the item quantities. *)
Definition negative_qty_cart : RawCart :=
  {| r_items := r_items sample_raw_cart; r_totalQty := RVal (-1)%Z;
     r_totalPrice := r_totalPrice sample_raw_cart |}.

Definition negative_qty_request : RawOrderRequest :=
  {| r_phone := RVal "555-123-4567";
     r_email := RVal "Jane.Doe@Example.com";
     r_verification := RVal "";
     r_shipping := RVal "12 Main St";
     r_order := RVal negative_qty_cart;
     r_cf_token := RVal "tok" |}.

(* ================================================================== *)
(** ** Lemmas on the handler *)

Lemma validate_business_hours_open (env : Env) :
  within_business_hours env -> validate_business_hours env = (true, "").
Proof.
  intros [Hd Hh]. unfold validate_business_hours.
  destruct (env_weekday env) eqn:E; try congruence; simpl;
    rewrite Z.geb_leb;
    destruct (Z.ltb_spec (env_hour env) 8); destruct (Z.leb_spec 20 (env_hour env));
    try lia; reflexivity.
Qed.

Lemma validate_business_hours_closed (env : Env) :
  ~ within_business_hours env ->
  validate_business_hours env = (false, BUSINESS_HOURS_MSG).
Proof.
  intros Hn. unfold validate_business_hours.
  destruct (env_weekday env) eqn:E; simpl; auto;
    rewrite Z.geb_leb;
    destruct (Z.ltb_spec (env_hour env) 8); destruct (Z.leb_spec 20 (env_hour env));
    simpl; auto; exfalso; apply Hn; split; try congruence; lia.
Qed.

Lemma hex_digit_upper_ok (n : Z) :
  (0 <= n < 16)%Z ->
  is_digit (char_upper (hex_digit n)) || ascii_between "A" "F" (char_upper (hex_digit n))
  = true.
Proof.
  intros H. rewrite <- (Z2Nat.id n) by lia.
  assert (Hk : (Z.to_nat n < 16)%nat) by lia.
  generalize (Z.to_nat n) Hk. clear n H Hk. intros k Hk.
  do 16 (destruct k as [| k]; [reflexivity |]). lia.
Qed.

Lemma land15_bound (x : Z) : (0 <= Z.land x 15 < 16)%Z.
Proof.
  change 15%Z with (Z.ones 4). rewrite Z.land_ones by lia.
  apply Z.mod_pos_bound. reflexivity.
Qed.

Lemma str_map_fold (f : ascii -> ascii) (l : list ascii) :
  str_map f (fold_right String EmptyString l) = fold_right String EmptyString (map f l).
Proof. induction l as [| c l IH]; simpl; congruence. Qed.

Lemma list_ascii_fold (l : list ascii) :
  list_ascii_of_string (fold_right String EmptyString l) = l.
Proof. induction l as [| c l IH]; simpl; congruence. Qed.

Lemma length_fold (l : list ascii) :
  String.length (fold_right String EmptyString l) = List.length l.
Proof. induction l as [| c l IH]; simpl; congruence. Qed.

Lemma make_order_id_ok (u : Z) : order_id_ok (make_order_id u) = true.
Proof.
  unfold make_order_id, uuid_str_prefix8, order_id_ok, py_upper.
  rewrite str_map_fold, length_fold, list_ascii_fold, !length_map, length_seq.
  apply forallb_forall. intros c Hc.
  apply in_map_iff in Hc as [d [<- Hd]].
  apply in_map_iff in Hd as [i [<- _]].
  apply hex_digit_upper_ok, land15_bound.
Qed.

(** The responses of [process_order] other than the hours rejection. *)
Lemma order_placed_not_error (id : string) (c : Z) (m : string) :
  order_placed id <> http_error c m.
Proof. discriminate. Qed.

Lemma char_lower_idem (x : ascii) : char_lower (char_lower x) = char_lower x.
Proof.
  destruct x as [b0 b1 b2 b3 b4 b5 b6 b7].
  destruct b0, b1, b2, b3, b4, b5, b6, b7; vm_compute; reflexivity.
Qed.

Lemma char_lower_upper (x : ascii) :
  ascii_between "a" "z" x = true -> char_lower (char_upper x) = char_lower x.
Proof.
  destruct x as [b0 b1 b2 b3 b4 b5 b6 b7].
  destruct b0, b1, b2, b3, b4, b5, b6, b7; vm_compute; intros; congruence.
Qed.

Lemma case_variant_lower (x y : ascii) :
  case_variant x y = true -> char_lower x = char_lower y.
Proof.
  unfold case_variant. intros H.
  apply orb_true_iff in H as [H | H]; [apply orb_true_iff in H as [H | H] |].
  - apply Ascii.eqb_eq in H. subst. reflexivity.
  - apply andb_true_iff in H as [_ H]. apply Ascii.eqb_eq in H. subst.
    symmetry. apply char_lower_idem.
  - apply andb_true_iff in H as [Hl H]. apply Ascii.eqb_eq in H. subst.
    symmetry. apply char_lower_upper. exact Hl.
Qed.

Lemma differ_only_in_case_lower (a b : string) :
  differ_only_in_case a b = true -> py_lower a = py_lower b.
Proof.
  revert b. induction a as [| x a IH]; intros [| y b]; simpl; try discriminate.
  - reflexivity.
  - intros H. apply andb_true_iff in H as [Hx Hr].
    unfold py_lower in *. simpl. f_equal.
    + apply case_variant_lower. exact Hx.
    + apply IH. exact Hr.
Qed.

Ltac split_process_order :=
  repeat match goal with
  | |- context [match ?x with _ => _ end] => destruct x
  end.

(* ================================================================== *)
(** ** Claims about the endpoint *)

(** C4: on Sunday (any hour) or at an Eastern hour below 8 or from 20 on,
    [process_order] answers 400 with the fixed business-hours message (and
    sends nothing); Monday to Saturday with the hour in [8, 20) the hours
    gate passes and the hours rejection is not the answer. *)
Theorem business_hours_gate (env : Env) (r : OrderRequest) :
  ((env_weekday env = Sunday \/ (env_hour env < 8)%Z \/ (20 <= env_hour env)%Z) ->
     process_order env r = (http_error 400 BUSINESS_HOURS_MSG, [])) /\
  ((env_weekday env <> Sunday /\ (8 <= env_hour env < 20)%Z) ->
     validate_business_hours env = (true, "") /\
     fst (process_order env r) <> http_error 400 BUSINESS_HOURS_MSG).
Proof.
  split.
  - intros H. unfold process_order.
    rewrite validate_business_hours_closed; [reflexivity |].
    intros [Hd Hh]. destruct H as [H | [H | H]]; [congruence | lia | lia].
  - intros Hw. split; [apply validate_business_hours_open; exact Hw |].
    unfold process_order. rewrite validate_business_hours_open by exact Hw.
    cbv beta iota zeta. split_process_order; simpl; discriminate.
Qed.

(** C1 (corrected): within business hours, a request whose honeypot field
    [verification] is non-empty gets 200 with success=true, an 8-character
    order id of digits and upper-case A-F, and "Order placed successfully",
    and no email is sent.  Outside business hours the hours gate, which
    runs first, rejects it. *)
Theorem honeypot_accepts_silently (env : Env) (r : OrderRequest) :
  within_business_hours env ->
  str_truthy (verification r) = true ->
  process_order env r = (order_placed (make_order_id (env_uuid4 env)), []) /\
  order_id_ok (make_order_id (env_uuid4 env)) = true.
Proof.
  intros Hw Hv. split; [| apply make_order_id_ok].
  unfold process_order. rewrite validate_business_hours_open by exact Hw.
  cbv beta iota zeta. rewrite Hv. reflexivity.
Qed.

Lemma honeypot_accepts_silently_witness :
  process_order (sample_env Tuesday 10 human_reply "") (sample_request "bot")
  = (order_placed (make_order_id (env_uuid4 (sample_env Tuesday 10 human_reply ""))), [])
  /\ order_id_ok (make_order_id (env_uuid4 (sample_env Tuesday 10 human_reply ""))) = true.
Proof.
  apply honeypot_accepts_silently.
  - split; [discriminate | simpl; lia].
  - vm_compute. reflexivity.
Defined.

(** C1 counterexample: a structurally valid bot request on a Sunday gets the
    400 business-hours rejection, not the 200 success response. *)
Lemma honeypot_sunday_rejected :
  validate_OrderRequest sample_email_ok (sample_raw_request "bot")
    = Ok (sample_request "bot") /\
  process_order (sample_env Sunday 10 human_reply "") (sample_request "bot")
    = (http_error 400 BUSINESS_HOURS_MSG, []) /\
  status_code (fst (process_order (sample_env Sunday 10 human_reply "")
                                  (sample_request "bot"))) <> 200%Z.
Proof. vm_compute. split; [reflexivity | split; [reflexivity | discriminate]]. Qed.

(** C2 (corrected): a request that reaches the human-verification stage
    (within business hours, empty honeypot) is answered 400 "Security check
    failed" when the verification call returns a falsy [success]; when the
    call raises, the catch-all handler answers 500 "Network error. Please
    try again.".  No email is sent in either case. *)
Theorem verification_failure_rejected (env : Env) (r : OrderRequest) :
  within_business_hours env ->
  verification r = "" ->
  (forall v, verify_turnstile_token env (cf_token r) = Some v ->
             jtruthy v = false ->
             process_order env r = (http_error 400 SECURITY_MSG, [])) /\
  (verify_turnstile_token env (cf_token r) = None ->
   process_order env r = (http_error 500 NETWORK_MSG, [])).
Proof.
  intros Hw Hv. unfold process_order.
  rewrite validate_business_hours_open by exact Hw. cbv beta iota zeta.
  rewrite Hv. simpl. split.
  - intros v Hr Ht. rewrite Hr, Ht. reflexivity.
  - intros Hr. rewrite Hr. reflexivity.
Qed.

Lemma verification_failure_rejected_witness :
  process_order (sample_env Monday 9 TurnstileRaises "") (sample_request "")
    = (http_error 500 NETWORK_MSG, []).
Proof.
  apply (verification_failure_rejected (sample_env Monday 9 TurnstileRaises "")
           (sample_request "")).
  - split; [discriminate | simpl; lia].
  - vm_compute. reflexivity.
  - vm_compute. reflexivity.
Defined.

(** C2 counterexample: when the verification call raises, the answer is a
    500, not a 400 rejection. *)
Lemma verification_error_is_500 :
  process_order (sample_env Monday 9 TurnstileRaises "") (sample_request "")
    = (http_error 500 NETWORK_MSG, []) /\
  status_code (fst (process_order (sample_env Monday 9 TurnstileRaises "")
                                  (sample_request ""))) <> 400%Z.
Proof. vm_compute. split; [reflexivity | discriminate]. Qed.

(** C3: for a request reaching the domain check (business hours, empty
    honeypot, truthy verification), if the domain of the lowered address is
    in the blocklist, or the MX lookup raises or is empty, or the NS lookup
    raises or is empty, [is_domain_real] returns False (it returns a
    boolean for every input, never raising) and the answer is 400 "Please
    provide a valid email address.". *)
Theorem domain_check_fail_closed (env : Env) (r : OrderRequest) (v : jval) :
  within_business_hours env ->
  verification r = "" ->
  verify_turnstile_token env (cf_token r) = Some v ->
  jtruthy v = true ->
  let d := email_domain (py_lower (email r)) in
  (env_blocklist env d = true \/ dns_fails (env_resolve env d MX) = true \/
   dns_fails (env_resolve env d NS) = true) ->
  is_domain_real env (py_lower (email r)) = false /\
  process_order env r = (http_error 400 INVALID_EMAIL_MSG, []).
Proof.
  intros Hw Hv Hr Ht d Hd.
  assert (Hf : is_domain_real env (py_lower (email r)) = false).
  { unfold is_domain_real. fold (email_domain (py_lower (email r))). fold d.
    destruct (env_blocklist env d) eqn:Hb; [reflexivity |].
    destruct Hd as [Hd | [Hd | Hd]]; [discriminate | |].
    - destruct (env_resolve env d MX) as [| [| x l]]; simpl in Hd;
        try reflexivity; discriminate.
    - destruct (env_resolve env d MX) as [| [| x l]]; try reflexivity.
      destruct (env_resolve env d NS) as [| [| y l']]; simpl in Hd;
        try reflexivity; discriminate. }
  split; [exact Hf |].
  unfold process_order. rewrite validate_business_hours_open by exact Hw.
  cbv beta iota zeta. rewrite Hv. simpl. rewrite Hr, Ht, Hf. reflexivity.
Qed.

Lemma domain_check_fail_closed_witness :
  is_domain_real (sample_env Monday 9 human_reply "") (py_lower (email blocked_request))
    = false /\
  process_order (sample_env Monday 9 human_reply "") blocked_request
    = (http_error 400 INVALID_EMAIL_MSG, []).
Proof.
  apply (domain_check_fail_closed (sample_env Monday 9 human_reply "")
           blocked_request (JBool true)).
  - split; [discriminate | simpl; lia].
  - vm_compute. reflexivity.
  - vm_compute. reflexivity.
  - reflexivity.
  - left. vm_compute. reflexivity.
Defined.

(** C9 (corrected): for an accepted non-bot request (business hours, empty
    honeypot, truthy verification, real domain) the two sends run in
    sequence, owner first, and exactly one of these happens: both sends
    return and the answer is 200 success; the owner send raises, the
    customer send is not attempted, and the answer is 500 "Failed to send
    order confirmation. Please try again."; or the owner send returns (that
    email is out) and the customer send raises, with the same 500. *)
Theorem dispatch_outcomes (env : Env) (r : OrderRequest) (v : jval) :
  within_business_hours env ->
  verification r = "" ->
  verify_turnstile_token env (cf_token r) = Some v ->
  jtruthy v = true ->
  is_domain_real env (py_lower (email r)) = true ->
  let id := make_order_id (env_uuid4 env) in
  let owner ok := {| ses_dest := env_business_email env;
                     ses_subject := "New Order Received - " ++ id; ses_ok := ok |} in
  let cust ok := {| ses_dest := py_lower (email r);
                    ses_subject := "Order Confirmation - " ++ id; ses_ok := ok |} in
  process_order env r = (order_placed id, [owner true; cust true]) \/
  process_order env r = (http_error 500 SEND_FAILED_MSG, [owner false]) \/
  process_order env r = (http_error 500 SEND_FAILED_MSG, [owner true; cust false]).
Proof.
  intros Hw Hv Hr Ht Hd id owner cust.
  unfold process_order. rewrite validate_business_hours_open by exact Hw.
  cbv beta iota zeta. rewrite Hv. simpl. rewrite Hr, Ht, Hd. simpl.
  unfold send_order_emails. fold id.
  destruct (env_ses_send env (env_business_email env) ("New Order Received - " ++ id));
    [destruct (env_ses_send env (py_lower (email r)) ("Order Confirmation - " ++ id)) |];
    simpl; auto.
Qed.

Lemma dispatch_outcomes_witness :
  let env := sample_env Monday 9 human_reply "jane.doe@example.com" in
  let id := make_order_id (env_uuid4 env) in
  let owner ok := {| ses_dest := env_business_email env;
                     ses_subject := "New Order Received - " ++ id; ses_ok := ok |} in
  let cust ok := {| ses_dest := py_lower (email (sample_request ""));
                    ses_subject := "Order Confirmation - " ++ id; ses_ok := ok |} in
  process_order env (sample_request "") = (order_placed id, [owner true; cust true]) \/
  process_order env (sample_request "") = (http_error 500 SEND_FAILED_MSG, [owner false]) \/
  process_order env (sample_request "")
    = (http_error 500 SEND_FAILED_MSG, [owner true; cust false]).
Proof.
  apply (dispatch_outcomes (sample_env Monday 9 human_reply "jane.doe@example.com")
           (sample_request "") (JBool true)).
  - split; [discriminate | simpl; lia].
  - vm_compute. reflexivity.
  - vm_compute. reflexivity.
  - reflexivity.
  - vm_compute. reflexivity.
Defined.

(** C9 counterexample: the customer send raises after the owner email went
    out; the answer is the 500 dispatch failure although one email was
    delivered. *)
Lemma dispatch_failure_after_owner_email :
  let env := sample_env Monday 9 human_reply "jane.doe@example.com" in
  fst (process_order env (sample_request "")) = http_error 500 SEND_FAILED_MSG /\
  exists c, In c (snd (process_order env (sample_request ""))) /\
            ses_dest c = "owner@shop.example" /\ ses_ok c = true.
Proof.
  vm_compute. split; [reflexivity |].
  eexists. split; [left; reflexivity | split; reflexivity].
Qed.

(** C10: two addresses that differ only in the case of ASCII letters get
    the same domain-check outcome, and two requests that differ only so in
    their email get the same answer and the same sends, because the handler
    lower-cases the address before using it. *)
Theorem domain_check_case_insensitive (env : Env) (r : OrderRequest) (e2 : string) :
  differ_only_in_case (email r) e2 = true ->
  is_domain_real env (py_lower (email r)) = is_domain_real env (py_lower e2) /\
  process_order env r = process_order env (with_email r e2).
Proof.
  intros H. apply differ_only_in_case_lower in H.
  split; [rewrite H; reflexivity |].
  unfold process_order, send_order_emails. simpl. rewrite H. reflexivity.
Qed.

Lemma domain_check_case_insensitive_witness :
  is_domain_real (sample_env Monday 9 human_reply "")
    (py_lower (email (sample_request "")))
  = is_domain_real (sample_env Monday 9 human_reply "") (py_lower "JANE.doe@EXAMPLE.COM") /\
  process_order (sample_env Monday 9 human_reply "") (sample_request "")
  = process_order (sample_env Monday 9 human_reply "")
      (with_email (sample_request "") "JANE.doe@EXAMPLE.COM").
Proof.
  apply domain_check_case_insensitive. vm_compute. reflexivity.
Defined.

(* ================================================================== *)
(** ** Lemmas on validation *)

Lemma run_checks_loc {A} (l : list string) (cs : list (check A)) (a : A) :
  Forall (fun e => loc e = l) (errs_of (run_checks l cs a)) /\
  (List.length (errs_of (run_checks l cs a)) <= 1)%nat.
Proof.
  induction cs as [| c cs IH]; simpl; [split; auto |].
  destruct (c a); simpl; auto.
Qed.

Lemma validate_field_loc {A} (l : list string) (tm : string) (c : check A)
    (vs : list (check A)) (r : raw A) :
  Forall (fun e => loc e = l) (errs_of (validate_field l tm c vs r)) /\
  (List.length (errs_of (validate_field l tm c vs r)) <= 1)%nat.
Proof.
  destruct r; [split; simpl; auto | split; simpl; auto | apply run_checks_loc].
Qed.

Lemma validate_field_fails {A} (l : list string) (tm : string) (c : check A)
    (vs : list (check A)) (r : raw A) :
  (exists a, validate_field l tm c vs r = Ok a) \/
  (exists e, validate_field l tm c vs r = Err [e]).
Proof.
  destruct r as [| | a]; [right; eexists; reflexivity | right; eexists; reflexivity |].
  unfold validate_field. generalize (c :: vs) as cs.
  intros cs. induction cs as [| c' cs IH]; simpl; eauto.
  destruct (c' a); eauto.
Qed.

Lemma Cart_fields_errs (l : list string) (r : RawCart) :
  let it := validate_items (l ++ ["items"]) (r_items r) in
  let values_items := match it with Ok x => Some x | Err _ => None end in
  let q := validate_field (l ++ ["totalQty"]) INT_MSG int_ge0
             [validate_min_quantity; validate_total_qty values_items]
             (r_totalQty r) in
  let p := validate_field (l ++ ["totalPrice"]) FLOAT_MSG float_ge0
             [validate_total_price values_items] (r_totalPrice r) in
  errs_of (validate_Cart_fields l r) = (errs_of it ++ errs_of q ++ errs_of p)%list /\
  ((exists c, validate_Cart_fields l r = Ok c) \/
   (exists errs, validate_Cart_fields l r = Err errs)).
Proof.
  intros it values_items q p. unfold validate_Cart_fields.
  fold it. fold values_items. fold q. fold p.
  destruct it, q, p; simpl; eauto.
Qed.

(* ------------------------------------------------------------------ *)
(** The messages item-level validation can report *)

Section ItemMessages.

Variable P : string -> Prop.
Hypothesis P_missing : P MISSING_MSG.
Hypothesis P_int : P INT_MSG.
Hypothesis P_float : P FLOAT_MSG.
Hypothesis P_str : P STR_MSG.
Hypothesis P_dict : P DICT_MSG.
Hypothesis P_gt0 : P GT0_MSG.
Hypothesis P_ge0 : P GE0_MSG.

Lemma run_checks_msgs {A} (l : list string) (cs : list (check A)) (a : A) :
  (forall ch, In ch cs -> forall x m, ch x = Some m -> P m) ->
  Forall (fun e => P (msg e)) (errs_of (run_checks l cs a)).
Proof.
  induction cs as [| c cs IH]; simpl; intros H; [constructor |].
  destruct (c a) as [m |] eqn:Ec.
  - constructor; [exact (H c (or_introl eq_refl) a m Ec) | constructor].
  - apply IH. intros ch Hin. apply H. right. exact Hin.
Qed.

Lemma validate_field_msgs {A} (l : list string) (tm : string) (c : check A)
    (vs : list (check A)) (r : raw A) :
  P tm -> (forall ch, In ch (c :: vs) -> forall x m, ch x = Some m -> P m) ->
  Forall (fun e => P (msg e)) (errs_of (validate_field l tm c vs r)).
Proof.
  intros Ht Hc. unfold validate_field.
  destruct r; [repeat constructor; auto | repeat constructor; auto |].
  apply run_checks_msgs. exact Hc.
Qed.

Ltac one_check :=
  intros ch [<- | []] x m;
  first [ unfold int_gt0; destruct (x >? 0)%Z; intros H; inversion H; auto
        | unfold float_ge0; destruct (PrimFloat.leb 0 x); intros H; inversion H; auto
        | unfold no_constraint; discriminate ].

Lemma validate_CartItem_msgs (l : list string) (r : RawItem) :
  Forall (fun e => P (msg e)) (errs_of (validate_CartItem l r)).
Proof.
  unfold validate_CartItem.
  pose proof (validate_field_msgs (l ++ ["qty"]) INT_MSG int_gt0 [] (r_qty r)
                P_int ltac:(one_check)) as G1.
  pose proof (validate_field_msgs (l ++ ["price"]) FLOAT_MSG float_ge0 [] (r_price r)
                P_float ltac:(one_check)) as G2.
  pose proof (validate_field_msgs (l ++ ["pricePerUnit"]) FLOAT_MSG float_ge0 []
                (r_pricePerUnit r) P_float ltac:(one_check)) as G3.
  pose proof (validate_field_msgs (l ++ ["imageUrl"]) STR_MSG no_constraint []
                (r_imageUrl r) P_str ltac:(one_check)) as G4.
  destruct (validate_field (l ++ ["qty"]) _ _ _ _), (validate_field (l ++ ["price"]) _ _ _ _),
    (validate_field (l ++ ["pricePerUnit"]) _ _ _ _), (validate_field (l ++ ["imageUrl"]) _ _ _ _);
    simpl in *; rewrite ?Forall_app; auto 7; constructor.
Qed.

Lemma validate_items_msgs (l : list string) (r : raw (list (string * RawItem))) :
  Forall (fun e => P (msg e)) (errs_of (validate_items l r)).
Proof.
  destruct r as [| | its]; simpl; [repeat constructor; auto | repeat constructor; auto |].
  induction its as [| [k ri] t IH]; simpl; [constructor |].
  pose proof (validate_CartItem_msgs (l ++ [k]) ri) as G.
  destruct (validate_CartItem (l ++ [k]) ri), (validate_item_list l t);
    simpl in *; rewrite ?Forall_app; auto; constructor.
Qed.

End ItemMessages.

(* ================================================================== *)
(** ** Claims about cart validation *)

Lemma total_price_msgs (P : string -> Prop) (l : list string)
    (vi : option (list (string * CartItem))) (rp : raw float) :
  P MISSING_MSG -> P FLOAT_MSG -> P GE0_MSG -> P PRICE_MISMATCH_MSG ->
  Forall (fun e => P (msg e))
    (errs_of (validate_field l FLOAT_MSG float_ge0 [validate_total_price vi] rp)).
Proof.
  intros Hm Hf Hg Hp.
  destruct rp as [| | x]; simpl; [repeat constructor; auto | repeat constructor; auto |].
  unfold float_ge0. destruct (PrimFloat.leb 0 x); simpl; [| repeat constructor; auto].
  unfold validate_total_price. destruct vi as [its |]; simpl; [| constructor].
  destruct (PrimFloat.ltb _ _); simpl; repeat constructor; auto.
Qed.

(** C6 (corrected): every cart whose declared [totalQty] is an integer
    below 3 fails validation, whatever its items and [totalPrice] are.  If
    [0 <= totalQty] the minimum-order error, whose message contains "3", is
    reported at [totalQty]; if [totalQty < 0] the [ge=0] constraint, which
    runs before the validator, is reported there instead, and no error of
    the cart carries the minimum-order message. *)
Theorem min_order_error (l : list string) (ri : raw (list (string * RawItem)))
    (rp : raw float) (v : Z) :
  (v < 3)%Z ->
  (exists errs,
     validate_Cart_fields l {| r_items := ri; r_totalQty := RVal v; r_totalPrice := rp |}
       = Err errs /\
     ((0 <= v)%Z -> In {| loc := l ++ ["totalQty"]; msg := MIN_ORDER_MSG |} errs) /\
     ((v < 0)%Z ->
        In {| loc := l ++ ["totalQty"]; msg := GE0_MSG |} errs /\
        Forall (fun e => msg e <> MIN_ORDER_MSG) errs)) /\
  str_contains "3" MIN_ORDER_MSG = true.
Proof.
  intros Hv. split; [| reflexivity].
  unfold validate_Cart_fields. simpl.
  destruct (Z.leb_spec 0 v) as [H0 | H0].
  - replace (int_ge0 v) with (@None string)
      by (unfold int_ge0; destruct (Z.geb_spec v 0); [reflexivity | lia]).
    replace (validate_min_quantity v) with (Some MIN_ORDER_MSG)
      by (unfold validate_min_quantity; destruct (Z.ltb_spec v 3); [reflexivity | lia]).
    destruct (validate_items (l ++ ["items"]) ri);
      eexists; (split; [reflexivity |]); (split; [| intros; lia]); intros _; simpl;
      first [left; reflexivity | apply in_or_app; right; left; reflexivity].
  - replace (int_ge0 v) with (Some GE0_MSG)
      by (unfold int_ge0; destruct (Z.geb_spec v 0); [lia | reflexivity]).
    set (vi := match validate_items (l ++ ["items"]) ri with
               | Ok x => Some x | Err _ => None end).
    pose proof (validate_items_msgs (fun m => m <> MIN_ORDER_MSG)
                  ltac:(discriminate) ltac:(discriminate) ltac:(discriminate)
                  ltac:(discriminate) ltac:(discriminate) ltac:(discriminate)
                  ltac:(discriminate) (l ++ ["items"]) ri) as Hi.
    pose proof (total_price_msgs (fun m => m <> MIN_ORDER_MSG) (l ++ ["totalPrice"]) vi rp
                  ltac:(discriminate) ltac:(discriminate) ltac:(discriminate)
                  ltac:(discriminate)) as Hp.
    fold vi in Hp.
    destruct (validate_items (l ++ ["items"]) ri) as [its |];
      eexists; (split; [reflexivity |]); (split; [intros; lia |]); intros _; simpl in *;
      (split; [first [left; reflexivity | apply in_or_app; right; left; reflexivity] |]);
      rewrite ?Forall_app; repeat split; auto; constructor; auto; discriminate.
Qed.

(** C6 (witness): [totalQty = 2] gets the minimum-order error, and
    [totalQty = -1] gets the [ge=0] error and no minimum-order error. *)
Lemma min_order_error_witness :
  In {| loc := ["order"] ++ ["totalQty"]; msg := MIN_ORDER_MSG |}
     (errs_of (validate_Cart_fields ["order"]
       {| r_items := RWrongType; r_totalQty := RVal 2%Z; r_totalPrice := RVal 1.0%float |})) /\
  Forall (fun e => msg e <> MIN_ORDER_MSG)
     (errs_of (validate_Cart_fields ["order"]
       {| r_items := RWrongType; r_totalQty := RVal (-1)%Z; r_totalPrice := RVal 1.0%float |})).
Proof.
  split.
  - destruct (proj1 (min_order_error ["order"] RWrongType (RVal 1.0%float) 2 ltac:(lia)))
      as [errs [E [H _]]].
    rewrite E. apply H. lia.
  - destruct (proj1 (min_order_error ["order"] RWrongType (RVal 1.0%float) (-1) ltac:(lia)))
      as [errs [E [_ H]]].
    rewrite E. apply H. lia.
Defined.

(** C6 counterexample: [totalQty = -1] (< 3) is refused by the [ge=0]
    constraint before the minimum-order validator runs; the only error
    does not mention 3. *)
Lemma negative_total_qty_no_min_error :
  validate_Cart_fields ["order"]
    {| r_items := RVal []; r_totalQty := RVal (-1)%Z; r_totalPrice := RVal 0.0%float |}
  = Err [ {| loc := ["order"; "totalQty"]; msg := GE0_MSG |} ] /\
  str_contains "3" GE0_MSG = false.
Proof. split; vm_compute; reflexivity. Qed.

(** C5 (corrected): for every cart whose items all validate and whose
    [totalPrice] passes [ge=0], with the item prices summed as Python sums
    floats and the difference taken in binary64: if [abs(sum - totalPrice)
    > 0.01] validation fails with the price-mismatch error, and otherwise no
    error is reported on [totalPrice]. *)
Theorem price_check (l : list string) (ri : raw (list (string * RawItem)))
    (its : list (string * CartItem)) (rq : raw Z) (v : float) :
  validate_items (l ++ ["items"]) ri = Ok its ->
  PrimFloat.leb 0%float v = true ->
  let d := PrimFloat.abs
             (PrimFloat.sub (py_sum_floats (map (fun p => price (snd p)) its)) v) in
  let c := validate_Cart_fields l
             {| r_items := ri; r_totalQty := rq; r_totalPrice := RVal v |} in
  (PrimFloat.ltb 0.01%float d = true ->
     exists errs, c = Err errs /\
       In {| loc := l ++ ["totalPrice"]; msg := PRICE_MISMATCH_MSG |} errs) /\
  (PrimFloat.ltb 0.01%float d = false ->
     forall e, In e (errs_of c) -> loc e <> (l ++ ["totalPrice"])%list).
Proof.
  intros Hi Hv d c. split.
  - intros Hd. unfold c, validate_Cart_fields. simpl. rewrite Hi. simpl.
    unfold float_ge0. rewrite Hv. simpl. fold d. rewrite Hd.
    destruct (validate_field (l ++ ["totalQty"]) INT_MSG int_ge0
                [validate_min_quantity; validate_total_qty (Some its)] rq);
      eexists; split; try reflexivity; simpl; auto.
    all: apply in_or_app; right; left; reflexivity.
  - intros Hd e He. unfold c in He.
    destruct (Cart_fields_errs l {| r_items := ri; r_totalQty := rq;
                                    r_totalPrice := RVal v |}) as [Heq _].
    rewrite Heq in He. simpl in He. rewrite Hi in He. simpl in He.
    unfold float_ge0 in He. rewrite Hv in He. simpl in He. fold d in He.
    rewrite Hd in He. simpl in He. rewrite app_nil_r in He.
    destruct (validate_field_loc (l ++ ["totalQty"]) INT_MSG int_ge0
                [validate_min_quantity; validate_total_qty (Some its)] rq) as [Hl _].
    rewrite Forall_forall in Hl. rewrite (Hl e He).
    intros Heq'. apply app_inv_head in Heq'. discriminate.
Qed.

Lemma price_check_witness :
  let d := PrimFloat.abs
             (PrimFloat.sub
                (py_sum_floats (map (fun p => price (snd p))
                   [("Tomatoes", {| qty := 3; price := 0.03; pricePerUnit := 0.01;
                                    imageUrl := "/img/item.png" |})])) 0.04) in
  let c := validate_Cart_fields ["order"]
             {| r_items := RVal [("Tomatoes", sample_raw_item 3 0.03 0.01)];
                r_totalQty := RVal 3%Z; r_totalPrice := RVal 0.04%float |} in
  (PrimFloat.ltb 0.01%float d = true ->
     exists errs, c = Err errs /\
       In {| loc := ["order"] ++ ["totalPrice"]; msg := PRICE_MISMATCH_MSG |} errs) /\
  (PrimFloat.ltb 0.01%float d = false ->
     forall e, In e (errs_of c) -> loc e <> (["order"] ++ ["totalPrice"])%list).
Proof.
  apply (price_check ["order"] (RVal [("Tomatoes", sample_raw_item 3 0.03 0.01)])).
  - vm_compute. reflexivity.
  - vm_compute. reflexivity.
Defined.

(** C5 counterexample: one item at 0.03 against a declared total of 0.04.
    The decimal values differ by exactly 0.01, yet the binary64 difference
    exceeds the binary64 0.01 and the cart is refused as a price mismatch. *)
Lemma price_check_rounding_rejects :
  (Qabs ((3 # 100) - (4 # 100)) <= (1 # 100))%Q /\
  validate_Cart_fields ["order"]
    {| r_items := RVal [("Tomatoes", sample_raw_item 3 0.03 0.01)];
       r_totalQty := RVal 3%Z; r_totalPrice := RVal 0.04%float |}
  = Err [ {| loc := ["order"; "totalPrice"]; msg := PRICE_MISMATCH_MSG |} ].
Proof.
  split.
  - apply Qle_bool_iff. reflexivity.
  - vm_compute. reflexivity.
Qed.

(* ================================================================== *)
(** ** Lemmas on error collection *)

Lemma res_good_fails {A} (x : res A) :
  res_good x -> (fails x = true <-> errs_of x <> []).
Proof. destruct x; simpl; split; congruence. Qed.

Ltac concat_nonempty :=
  let Hn := fresh "Hn" in
  intro Hn;
  repeat match goal with
  | H : (_ ++ _)%list = [] |- _ => apply app_eq_nil in H; destruct H
  end;
  simpl in *; congruence.

Lemma validate_field_good {A} (l : list string) (tm : string) (c : check A)
    (vs : list (check A)) (r : raw A) : res_good (validate_field l tm c vs r).
Proof.
  destruct (validate_field_fails l tm c vs r) as [[a H] | [e H]]; rewrite H;
    simpl; [exact I | discriminate].
Qed.

Lemma validate_email_good (email_ok : string -> option string) (l : list string)
    (r : raw string) : res_good (validate_email email_ok l r).
Proof.
  destruct r; simpl; try discriminate. destruct (email_ok a); simpl; auto; discriminate.
Qed.

Lemma validate_CartItem_good (l : list string) (r : RawItem) :
  res_good (validate_CartItem l r).
Proof.
  unfold validate_CartItem.
  pose proof (validate_field_good (l ++ ["qty"]) INT_MSG int_gt0 [] (r_qty r)) as G1.
  pose proof (validate_field_good (l ++ ["price"]) FLOAT_MSG float_ge0 [] (r_price r)) as G2.
  pose proof (validate_field_good (l ++ ["pricePerUnit"]) FLOAT_MSG float_ge0 []
                (r_pricePerUnit r)) as G3.
  pose proof (validate_field_good (l ++ ["imageUrl"]) STR_MSG no_constraint []
                (r_imageUrl r)) as G4.
  destruct (validate_field (l ++ ["qty"]) _ _ _ _),
           (validate_field (l ++ ["price"]) _ _ _ _),
           (validate_field (l ++ ["pricePerUnit"]) _ _ _ _),
           (validate_field (l ++ ["imageUrl"]) _ _ _ _);
    simpl; auto; concat_nonempty.
Qed.

Lemma validate_item_list_good (l : list string) (its : list (string * RawItem)) :
  res_good (validate_item_list l its).
Proof.
  induction its as [| [k ri] t IH]; simpl; [exact I |].
  pose proof (validate_CartItem_good (l ++ [k]) ri) as G.
  destruct (validate_CartItem (l ++ [k]) ri), (validate_item_list l t);
    simpl; auto; concat_nonempty.
Qed.

Lemma validate_items_good (l : list string) (r : raw (list (string * RawItem))) :
  res_good (validate_items l r).
Proof.
  destruct r; simpl; try discriminate. apply validate_item_list_good.
Qed.

Lemma validate_Cart_good (l : list string) (r : raw RawCart) :
  res_good (validate_Cart l r).
Proof.
  destruct r as [| | c]; simpl; try discriminate.
  unfold validate_Cart_fields.
  pose proof (validate_items_good (l ++ ["items"]) (r_items c)) as G1.
  destruct (validate_items (l ++ ["items"]) (r_items c)) as [its | e1];
  [pose proof (validate_field_good (l ++ ["totalQty"]) INT_MSG int_ge0
       [validate_min_quantity; validate_total_qty (Some its)] (r_totalQty c)) as G2;
   pose proof (validate_field_good (l ++ ["totalPrice"]) FLOAT_MSG float_ge0
       [validate_total_price (Some its)] (r_totalPrice c)) as G3
  |pose proof (validate_field_good (l ++ ["totalQty"]) INT_MSG int_ge0
       [validate_min_quantity; validate_total_qty None] (r_totalQty c)) as G2;
   pose proof (validate_field_good (l ++ ["totalPrice"]) FLOAT_MSG float_ge0
       [validate_total_price None] (r_totalPrice c)) as G3];
  destruct (validate_field (l ++ ["totalQty"]) _ _ _ _),
           (validate_field (l ++ ["totalPrice"]) _ _ _ _);
  simpl; auto; concat_nonempty.
Qed.

(** Locations: item errors sit under the item, cart errors under the cart. *)
Lemma validate_CartItem_loc (l : list string) (r : RawItem) :
  Forall (under l) (errs_of (validate_CartItem l r)).
Proof.
  unfold validate_CartItem.
  assert (HF : forall x (A : Type) (tm : string) (c : check A) (vs : list (check A))
                 (rv : raw A),
            Forall (under l) (errs_of (validate_field (l ++ [x]) tm c vs rv))).
  { intros x A tm c vs rv.
    destruct (validate_field_loc (l ++ [x]) tm c vs rv) as [H _].
    eapply Forall_impl; [| exact H]. intros e He. exists [x]. exact He. }
  pose proof (HF "qty" _ INT_MSG int_gt0 [] (r_qty r)) as G1.
  pose proof (HF "price" _ FLOAT_MSG float_ge0 [] (r_price r)) as G2.
  pose proof (HF "pricePerUnit" _ FLOAT_MSG float_ge0 [] (r_pricePerUnit r)) as G3.
  pose proof (HF "imageUrl" _ STR_MSG no_constraint [] (r_imageUrl r)) as G4.
  destruct (validate_field (l ++ ["qty"]) _ _ _ _),
           (validate_field (l ++ ["price"]) _ _ _ _),
           (validate_field (l ++ ["pricePerUnit"]) _ _ _ _),
           (validate_field (l ++ ["imageUrl"]) _ _ _ _);
    simpl in *; auto; rewrite ?Forall_app;
    repeat match goal with |- _ /\ _ => split end; auto.
Qed.

Lemma validate_item_list_loc (l : list string) (its : list (string * RawItem)) :
  Forall (under l) (errs_of (validate_item_list l its)).
Proof.
  induction its as [| [k ri] t IH]; simpl; [constructor |].
  assert (G : Forall (under l) (errs_of (validate_CartItem (l ++ [k]) ri))).
  { eapply Forall_impl; [| apply validate_CartItem_loc].
    intros e [s Hs]. exists ([k] ++ s)%list. rewrite Hs, app_assoc. reflexivity. }
  destruct (validate_CartItem (l ++ [k]) ri), (validate_item_list l t);
    simpl in *; auto; rewrite ?Forall_app; auto.
Qed.

Lemma validate_items_loc (l : list string) (r : raw (list (string * RawItem))) :
  Forall (under l) (errs_of (validate_items l r)).
Proof.
  destruct r; simpl.
  - constructor; [exists []; rewrite app_nil_r; reflexivity | constructor].
  - constructor; [exists []; rewrite app_nil_r; reflexivity | constructor].
  - apply validate_item_list_loc.
Qed.

Lemma count_loc_app (l : list string) (a b : list err) :
  count_loc l (a ++ b) = (count_loc l a + count_loc l b)%nat.
Proof. unfold count_loc. rewrite filter_app, length_app. reflexivity. Qed.

Lemma count_loc_le_length (l : list string) (a : list err) :
  (count_loc l a <= List.length a)%nat.
Proof. unfold count_loc. apply filter_length_le. Qed.

Lemma count_loc_none (l : list string) (a : list err) :
  Forall (fun e => loc e <> l) a -> count_loc l a = 0%nat.
Proof.
  intros H. unfold count_loc. induction H as [| e a He H IH]; simpl; [reflexivity |].
  destruct (list_eq_dec string_dec (loc e) l); [contradiction | exact IH].
Qed.

Lemma field_reported {A} (x : res A) (P : list string -> Prop) (pre post : list err) :
  res_good x ->
  Forall (fun e => P (loc e)) (errs_of x) ->
  Forall (fun e => ~ P (loc e)) pre ->
  Forall (fun e => ~ P (loc e)) post ->
  (fails x = true <-> exists e, In e (pre ++ errs_of x ++ post) /\ P (loc e)).
Proof.
  intros Hg Hx Hpre Hpost. rewrite (res_good_fails x Hg). split.
  - intros Hne. destruct (errs_of x) as [| e t] eqn:E; [congruence |].
    exists e. split.
    + apply in_or_app. right. left. reflexivity.
    + inversion Hx. assumption.
  - intros [e [Hin HP]] Hnil. rewrite Hnil in Hin. simpl in Hin.
    apply in_app_or in Hin as [Hin | Hin].
    + rewrite Forall_forall in Hpre. exact (Hpre e Hin HP).
    + rewrite Forall_forall in Hpost. exact (Hpost e Hin HP).
Qed.

Lemma field_reported_l (b : bool) (X : list err) (P : list string -> Prop)
    (pre post : list err) :
  (b = true <-> X <> []) ->
  Forall (fun e => P (loc e)) X ->
  Forall (fun e => ~ P (loc e)) pre ->
  Forall (fun e => ~ P (loc e)) post ->
  (b = true <-> exists e, In e (pre ++ X ++ post) /\ P (loc e)).
Proof.
  intros Hb Hx Hpre Hpost. rewrite Hb. split.
  - intros Hne. destruct X as [| e t]; [congruence |].
    exists e. split.
    + apply in_or_app. right. left. reflexivity.
    + inversion Hx. assumption.
  - intros [e [Hin HP]] Hnil. subst X. simpl in Hin.
    apply in_app_or in Hin as [Hin | Hin].
    + rewrite Forall_forall in Hpre. exact (Hpre e Hin HP).
    + rewrite Forall_forall in Hpost. exact (Hpost e Hin HP).
Qed.

Lemma validate_email_loc (email_ok : string -> option string) (l : list string)
    (r : raw string) :
  Forall (fun e => loc e = l) (errs_of (validate_email email_ok l r)) /\
  (List.length (errs_of (validate_email email_ok l r)) <= 1)%nat.
Proof.
  destruct r; simpl; auto. destruct (email_ok a); simpl; auto.
Qed.

Lemma order_field_locs (r : RawOrderRequest) :
  Forall (fun e => exists t, loc e = "order" :: t) (errs_of (validate_order_field r)) /\
  (count_loc ["order"; "totalQty"] (errs_of (validate_order_field r)) <= 1)%nat /\
  (count_loc ["order"; "totalPrice"] (errs_of (validate_order_field r)) <= 1)%nat.
Proof.
  unfold validate_order_field, validate_Cart.
  destruct (r_order r) as [| | c].
  - simpl. repeat split; [constructor; [exists []; reflexivity | constructor] | |];
      eapply Nat.le_trans; try apply count_loc_le_length; simpl; lia.
  - simpl. repeat split; [constructor; [exists []; reflexivity | constructor] | |];
      eapply Nat.le_trans; try apply count_loc_le_length; simpl; lia.
  - destruct (Cart_fields_errs ["order"] c) as [Heq _]. rewrite Heq.
    pose proof (validate_items_loc (["order"] ++ ["items"]) (r_items c)) as Hi.
    set (it := validate_items (["order"] ++ ["items"]) (r_items c)) in *.
    set (vi := match it with Ok x => Some x | Err _ => None end).
    destruct (validate_field_loc (["order"] ++ ["totalQty"]) INT_MSG int_ge0
                [validate_min_quantity; validate_total_qty vi] (r_totalQty c)) as [Hq Hql].
    destruct (validate_field_loc (["order"] ++ ["totalPrice"]) FLOAT_MSG float_ge0
                [validate_total_price vi] (r_totalPrice c)) as [Hp Hpl].
    set (q := validate_field _ _ _ _ (r_totalQty c)) in *.
    set (p := validate_field _ _ _ _ (r_totalPrice c)) in *.
    rewrite !count_loc_app. split; [| split].
    + rewrite !Forall_app. repeat split.
      * eapply Forall_impl; [| exact Hi]. intros e [s Hs]. exists ("items" :: s). exact Hs.
      * eapply Forall_impl; [| exact Hq]. intros e He. exists ["totalQty"]. exact He.
      * eapply Forall_impl; [| exact Hp]. intros e He. exists ["totalPrice"]. exact He.
    + rewrite (count_loc_none _ (errs_of it)), (count_loc_none _ (errs_of p)).
      * pose proof (count_loc_le_length ["order"; "totalQty"] (errs_of q)). lia.
      * eapply Forall_impl; [| exact Hp]. intros e He. rewrite He. discriminate.
      * eapply Forall_impl; [| exact Hi]. intros e [s Hs]. rewrite Hs. discriminate.
    + rewrite (count_loc_none _ (errs_of it)), (count_loc_none _ (errs_of q)).
      * pose proof (count_loc_le_length ["order"; "totalPrice"] (errs_of p)). lia.
      * eapply Forall_impl; [| exact Hq]. intros e He. rewrite He. discriminate.
      * eapply Forall_impl; [| exact Hi]. intros e [s Hs]. rewrite Hs. discriminate.
Qed.

Lemma OrderRequest_errs (email_ok : string -> option string) (r : RawOrderRequest) :
  errs_of (validate_OrderRequest email_ok r) =
  (errs_of (validate_phone_field r) ++ errs_of (validate_email_field email_ok r)
   ++ errs_of (validate_str_field "verification" (r_verification r))
   ++ errs_of (validate_str_field "shipping" (r_shipping r))
   ++ errs_of (validate_order_field r)
   ++ errs_of (validate_str_field "cf_token" (r_cf_token r)))%list.
Proof.
  unfold validate_OrderRequest.
  destruct (validate_phone_field r), (validate_email_field email_ok r),
           (validate_str_field "verification" (r_verification r)),
           (validate_str_field "shipping" (r_shipping r)),
           (validate_order_field r),
           (validate_str_field "cf_token" (r_cf_token r)); reflexivity.
Qed.

Ltac not_at :=
  rewrite ?Forall_app; repeat match goal with |- _ /\ _ => split end;
  try constructor;
  (eapply Forall_impl; [| eassumption]); simpl;
  let e := fresh "e" in
  let He := fresh "He" in
  intros e He;
  first [ rewrite He; discriminate
        | rewrite He; let t := fresh "t" in intros [t Ht]; discriminate
        | let t := fresh "t" in destruct He as [t Ht]; rewrite Ht; discriminate ].

Lemma str_field_loc (f : string) (v : raw string) :
  Forall (fun e => loc e = [f]) (errs_of (validate_str_field f v)) /\
  (List.length (errs_of (validate_str_field f v)) <= 1)%nat.
Proof. apply validate_field_loc. Qed.

(* ================================================================== *)
(** ** Claim about error reporting *)

(** The per-field counts of the reported errors. *)
Lemma errors_reported_per_field_core (email_ok : string -> option string)
    (r : RawOrderRequest) :
  let errs := errs_of (validate_OrderRequest email_ok r) in
  (forall f x, In (f, x) (scalar_fields email_ok r) ->
     (fails x = true <-> exists e, In e errs /\ loc e = [f]) /\
     (count_loc [f] errs <= 1)%nat) /\
  (fails (validate_order_field r) = true <->
     exists e, In e errs /\ exists t, loc e = "order" :: t) /\
  (count_loc ["order"; "totalQty"] errs <= 1)%nat /\
  (count_loc ["order"; "totalPrice"] errs <= 1)%nat.
Proof.
  intros errs. unfold errs. rewrite OrderRequest_errs.
  destruct (validate_field_loc ["phone"] STR_MSG no_constraint [validate_phone_format]
              (r_phone r)) as [F1 N1].
  destruct (validate_email_loc email_ok ["email"] (r_email r)) as [F2 N2].
  destruct (str_field_loc "verification" (r_verification r)) as [F3 N3].
  destruct (str_field_loc "shipping" (r_shipping r)) as [F4 N4].
  destruct (order_field_locs r) as [F5 [Q5 P5]].
  destruct (str_field_loc "cf_token" (r_cf_token r)) as [F6 N6].
  pose proof (validate_field_good ["phone"] STR_MSG no_constraint [validate_phone_format]
                (r_phone r)) as G1.
  pose proof (validate_email_good email_ok ["email"] (r_email r)) as G2.
  pose proof (validate_field_good ["verification"] STR_MSG no_constraint []
                (r_verification r)) as G3.
  pose proof (validate_field_good ["shipping"] STR_MSG no_constraint []
                (r_shipping r)) as G4.
  pose proof (validate_Cart_good ["order"] (r_order r)) as G5.
  pose proof (validate_field_good ["cf_token"] STR_MSG no_constraint []
                (r_cf_token r)) as G6.
  unfold validate_phone_field, validate_email_field, validate_str_field,
    validate_order_field in *.
  unfold scalar_fields, validate_phone_field, validate_email_field, validate_str_field.
  set (X1 := errs_of (validate_field ["phone"] _ _ _ (r_phone r))) in *.
  set (X2 := errs_of (validate_email email_ok ["email"] (r_email r))) in *.
  set (X3 := errs_of (validate_field ["verification"] _ _ _ (r_verification r))) in *.
  set (X4 := errs_of (validate_field ["shipping"] _ _ _ (r_shipping r))) in *.
  set (X5 := errs_of (validate_Cart ["order"] (r_order r))) in *.
  set (X6 := errs_of (validate_field ["cf_token"] _ _ _ (r_cf_token r))) in *.
  split; [| split; [| split]].
  - intros f x Hin. simpl in Hin.
    destruct Hin as [H | [H | [H | [H | [H | []]]]]]; injection H as <- <-.
    + split.
      * change (X1 ++ X2 ++ X3 ++ X4 ++ X5 ++ X6)%list
          with ([] ++ X1 ++ (X2 ++ X3 ++ X4 ++ X5 ++ X6))%list.
        eapply field_reported_l with (X := X1) (P := fun l => l = ["phone"]);
          [apply res_good_fails; exact G1 | exact F1 | constructor | not_at].
      * rewrite !count_loc_app.
        rewrite (count_loc_none _ X2), (count_loc_none _ X3), (count_loc_none _ X4),
          (count_loc_none _ X5), (count_loc_none _ X6) by not_at.
        pose proof (count_loc_le_length ["phone"] X1). lia.
    + split.
      * eapply field_reported_l with (X := X2) (P := fun l => l = ["email"]);
          [apply res_good_fails; exact G2 | exact F2 | not_at | not_at].
      * rewrite !count_loc_app.
        rewrite (count_loc_none _ X1), (count_loc_none _ X3), (count_loc_none _ X4),
          (count_loc_none _ X5), (count_loc_none _ X6) by not_at.
        pose proof (count_loc_le_length ["email"] X2). lia.
    + split.
      * replace (X1 ++ X2 ++ X3 ++ X4 ++ X5 ++ X6)%list
          with ((X1 ++ X2) ++ X3 ++ (X4 ++ X5 ++ X6))%list
          by (rewrite <- ?app_assoc; reflexivity).
        eapply field_reported_l with (X := X3) (P := fun l => l = ["verification"]);
          [apply res_good_fails; exact G3 | exact F3 | not_at | not_at].
      * rewrite !count_loc_app.
        rewrite (count_loc_none _ X1), (count_loc_none _ X2), (count_loc_none _ X4),
          (count_loc_none _ X5), (count_loc_none _ X6) by not_at.
        pose proof (count_loc_le_length ["verification"] X3). lia.
    + split.
      * replace (X1 ++ X2 ++ X3 ++ X4 ++ X5 ++ X6)%list
          with ((X1 ++ X2 ++ X3) ++ X4 ++ (X5 ++ X6))%list
          by (rewrite <- ?app_assoc; reflexivity).
        eapply field_reported_l with (X := X4) (P := fun l => l = ["shipping"]);
          [apply res_good_fails; exact G4 | exact F4 | not_at | not_at].
      * rewrite !count_loc_app.
        rewrite (count_loc_none _ X1), (count_loc_none _ X2), (count_loc_none _ X3),
          (count_loc_none _ X5), (count_loc_none _ X6) by not_at.
        pose proof (count_loc_le_length ["shipping"] X4). lia.
    + split.
      * replace (X1 ++ X2 ++ X3 ++ X4 ++ X5 ++ X6)%list
          with ((X1 ++ X2 ++ X3 ++ X4 ++ X5) ++ X6 ++ [])%list
          by (rewrite app_nil_r, <- ?app_assoc; reflexivity).
        eapply field_reported_l with (X := X6) (P := fun l => l = ["cf_token"]);
          [apply res_good_fails; exact G6 | exact F6 | not_at | constructor].
      * rewrite !count_loc_app.
        rewrite (count_loc_none _ X1), (count_loc_none _ X2), (count_loc_none _ X3),
          (count_loc_none _ X4), (count_loc_none _ X5) by not_at.
        pose proof (count_loc_le_length ["cf_token"] X6). lia.
  - replace (X1 ++ X2 ++ X3 ++ X4 ++ X5 ++ X6)%list
      with ((X1 ++ X2 ++ X3 ++ X4) ++ X5 ++ X6)%list
      by (rewrite <- ?app_assoc; reflexivity).
    eapply field_reported_l with (X := X5) (P := fun l => exists t, l = "order" :: t);
      [apply res_good_fails; exact G5 | exact F5 | not_at | not_at].
  - rewrite !count_loc_app.
    rewrite (count_loc_none _ X1), (count_loc_none _ X2), (count_loc_none _ X3),
      (count_loc_none _ X4), (count_loc_none _ X6) by not_at. lia.
  - rewrite !count_loc_app.
    rewrite (count_loc_none _ X1), (count_loc_none _ X2), (count_loc_none _ X3),
      (count_loc_none _ X4), (count_loc_none _ X6) by not_at. lia.
Qed.

Lemma errs_at_app (l : list string) (a b : list err) :
  errs_at l (a ++ b) = (errs_at l a ++ errs_at l b)%list.
Proof. unfold errs_at. apply filter_app. Qed.

Lemma errs_at_none (l : list string) (a : list err) :
  Forall (fun e => loc e <> l) a -> errs_at l a = [].
Proof.
  intros H. unfold errs_at. induction H as [| e a He H IH]; simpl; [reflexivity |].
  destruct (list_eq_dec string_dec (loc e) l); [contradiction | exact IH].
Qed.

Lemma errs_at_all (l : list string) (a : list err) :
  Forall (fun e => loc e = l) a -> errs_at l a = a.
Proof.
  intros H. unfold errs_at. induction H as [| e a He H IH]; simpl; [reflexivity |].
  destruct (list_eq_dec string_dec (loc e) l); [rewrite IH; reflexivity | contradiction].
Qed.

Lemma validate_field_first {A} (l : list string) (tm : string) (c : check A)
    (vs : list (check A)) (r : raw A) :
  errs_of (validate_field l tm c vs r) = error_list l (first_error tm (c :: vs) r).
Proof.
  destruct r as [| | a]; [reflexivity | reflexivity |].
  unfold validate_field, first_error. generalize (c :: vs) as cs. intros cs.
  induction cs as [| c' cs IH]; simpl; [reflexivity |].
  destruct (c' a); [reflexivity | exact IH].
Qed.

Lemma first_check_reported (email_ok : string -> option string) (r : RawOrderRequest) :
  let errs := errs_of (validate_OrderRequest email_ok r) in
  errs_at ["phone"] errs =
    error_list ["phone"] (first_error STR_MSG [validate_phone_format] (r_phone r)) /\
  (forall rc, r_order r = RVal rc ->
     errs_at ["order"; "totalQty"] errs =
       error_list ["order"; "totalQty"]
         (first_error INT_MSG
            [int_ge0; validate_min_quantity; validate_total_qty (cart_values_items rc)]
            (r_totalQty rc)) /\
     errs_at ["order"; "totalPrice"] errs =
       error_list ["order"; "totalPrice"]
         (first_error FLOAT_MSG [float_ge0; validate_total_price (cart_values_items rc)]
            (r_totalPrice rc))).
Proof.
  intros errs. unfold errs. rewrite OrderRequest_errs.
  destruct (validate_field_loc ["phone"] STR_MSG no_constraint [validate_phone_format]
              (r_phone r)) as [F1 _].
  destruct (validate_email_loc email_ok ["email"] (r_email r)) as [F2 _].
  destruct (str_field_loc "verification" (r_verification r)) as [F3 _].
  destruct (str_field_loc "shipping" (r_shipping r)) as [F4 _].
  destruct (order_field_locs r) as [F5 _].
  destruct (str_field_loc "cf_token" (r_cf_token r)) as [F6 _].
  pose proof (validate_field_first ["phone"] STR_MSG no_constraint [validate_phone_format]
                (r_phone r)) as E1.
  unfold validate_phone_field, validate_email_field, validate_str_field,
    validate_order_field in *.
  set (X1 := errs_of (validate_field ["phone"] _ _ _ (r_phone r))) in *.
  set (X2 := errs_of (validate_email email_ok ["email"] (r_email r))) in *.
  set (X3 := errs_of (validate_field ["verification"] _ _ _ (r_verification r))) in *.
  set (X4 := errs_of (validate_field ["shipping"] _ _ _ (r_shipping r))) in *.
  set (X5 := errs_of (validate_Cart ["order"] (r_order r))) in *.
  set (X6 := errs_of (validate_field ["cf_token"] _ _ _ (r_cf_token r))) in *.
  rewrite !errs_at_app.
  split.
  - rewrite (errs_at_all _ X1 F1).
    rewrite (errs_at_none _ X2), (errs_at_none _ X3), (errs_at_none _ X4),
      (errs_at_none _ X5), (errs_at_none _ X6) by not_at.
    rewrite !app_nil_r. exact E1.
  - intros rc Hrc.
    rewrite (errs_at_none ["order"; "totalQty"] X1), (errs_at_none ["order"; "totalQty"] X2),
      (errs_at_none ["order"; "totalQty"] X3), (errs_at_none ["order"; "totalQty"] X4),
      (errs_at_none ["order"; "totalQty"] X6) by not_at.
    rewrite (errs_at_none ["order"; "totalPrice"] X1),
      (errs_at_none ["order"; "totalPrice"] X2), (errs_at_none ["order"; "totalPrice"] X3),
      (errs_at_none ["order"; "totalPrice"] X4), (errs_at_none ["order"; "totalPrice"] X6)
      by not_at.
    simpl app. rewrite !app_nil_r.
    unfold X5. rewrite Hrc. simpl validate_Cart.
    destruct (Cart_fields_errs ["order"] rc) as [Heq _]. rewrite Heq.
    pose proof (validate_items_loc (["order"] ++ ["items"]) (r_items rc)) as Hi.
    unfold cart_values_items. simpl app in *.
    set (it := validate_items ["order"; "items"] (r_items rc)) in *.
    set (vi := match it with Ok x => Some x | Err _ => None end).
    destruct (validate_field_loc ["order"; "totalQty"] INT_MSG int_ge0
                [validate_min_quantity; validate_total_qty vi] (r_totalQty rc)) as [Hq _].
    destruct (validate_field_loc ["order"; "totalPrice"] FLOAT_MSG float_ge0
                [validate_total_price vi] (r_totalPrice rc)) as [Hp _].
    set (Q := errs_of (validate_field ["order"; "totalQty"] _ _ _ _)) in *.
    set (Pr := errs_of (validate_field ["order"; "totalPrice"] _ _ _ _)) in *.
    rewrite !errs_at_app.
    rewrite (errs_at_all _ Q Hq), (errs_at_all _ Pr Hp).
    rewrite (errs_at_none ["order"; "totalQty"] (errs_of it)),
      (errs_at_none ["order"; "totalQty"] Pr),
      (errs_at_none ["order"; "totalPrice"] (errs_of it)),
      (errs_at_none ["order"; "totalPrice"] Q).
    + simpl. rewrite app_nil_r. split; apply validate_field_first.
    + eapply Forall_impl; [| exact Hq]. intros e He. rewrite He. discriminate.
    + eapply Forall_impl; [| exact Hi]. intros e [t Ht]. rewrite Ht. discriminate.
    + eapply Forall_impl; [| exact Hp]. intros e He. rewrite He. discriminate.
    + eapply Forall_impl; [| exact Hi]. intros e [t Ht]. rewrite Ht. discriminate.
Qed.

(** C8 (corrected): schema validation does not stop at the first
    violation.  Every [str] field of the request that fails is reported,
    each with at most one error; a failing [order] is reported under
    [order]; and within the cart, the [totalQty] and [totalPrice] fields
    again carry at most one error each, however many of their checks would
    fail.  Within each of the fields with several checks ([phone], and the
    cart's [totalQty] and [totalPrice]) the error reported is the one of the
    first failed check, in declaration order: type, [Field] constraint,
    validators. *)
Theorem errors_reported_per_field (email_ok : string -> option string)
    (r : RawOrderRequest) :
  let errs := errs_of (validate_OrderRequest email_ok r) in
  (forall f x, In (f, x) (scalar_fields email_ok r) ->
     (fails x = true <-> exists e, In e errs /\ loc e = [f]) /\
     (count_loc [f] errs <= 1)%nat) /\
  (fails (validate_order_field r) = true <->
     exists e, In e errs /\ exists t, loc e = "order" :: t) /\
  (count_loc ["order"; "totalQty"] errs <= 1)%nat /\
  (count_loc ["order"; "totalPrice"] errs <= 1)%nat /\
  errs_at ["phone"] errs =
    error_list ["phone"] (first_error STR_MSG [validate_phone_format] (r_phone r)) /\
  (forall rc, r_order r = RVal rc ->
     errs_at ["order"; "totalQty"] errs =
       error_list ["order"; "totalQty"]
         (first_error INT_MSG
            [int_ge0; validate_min_quantity; validate_total_qty (cart_values_items rc)]
            (r_totalQty rc)) /\
     errs_at ["order"; "totalPrice"] errs =
       error_list ["order"; "totalPrice"]
         (first_error FLOAT_MSG [float_ge0; validate_total_price (cart_values_items rc)]
            (r_totalPrice rc))).
Proof.
  intros errs.
  destruct (errors_reported_per_field_core email_ok r) as (H1 & H2 & H3 & H4).
  destruct (first_check_reported email_ok r) as (H5 & H6).
  auto 6.
Qed.

(* ================================================================== *)
(** ** Lemmas on the phone pattern *)

Lemma denotes_ext (m : matcher) (L1 L2 : list ascii -> Prop) :
  (forall x, L1 x <-> L2 x) -> denotes m L1 -> denotes m L2.
Proof.
  unfold denotes in *. intros HL Hm s r. rewrite Hm. split; intros [x [Hx Hl]]; exists x; split; auto;
    apply HL; exact Hl.
Qed.

Lemma denotes_class (p : ascii -> bool) :
  denotes (m_class p) (fun x => exists c, x = [c] /\ p c = true).
Proof.
  intros [| c t] r; simpl; split.
  - intros [].
  - intros [x [Hx [c [-> _]]]]. discriminate.
  - destruct (p c) eqn:Hp; simpl; [| intros []].
    intros [<- | []]. exists [c]. split; [reflexivity | exists c; auto].
  - intros [x [Hx [c' [-> Hc]]]]. simpl in Hx. injection Hx as -> ->.
    rewrite Hc. left. reflexivity.
Qed.

Lemma denotes_seq (a b : matcher) (La Lb : list ascii -> Prop) :
  denotes a La -> denotes b Lb ->
  denotes (m_seq a b) (fun x => exists x1 x2, x = (x1 ++ x2)%list /\ La x1 /\ Lb x2).
Proof.
  intros Ha Hb s r. unfold m_seq. rewrite in_flat_map. split.
  - intros [m [Hm Hr]]. apply Ha in Hm as [x1 [-> H1]]. apply Hb in Hr as [x2 [-> H2]].
    exists (x1 ++ x2)%list. split; [apply app_assoc | exists x1, x2; auto].
  - intros [x [-> [x1 [x2 [-> [H1 H2]]]]]]. exists (x2 ++ r)%list. split.
    + apply Ha. exists x1. split; [symmetry; apply app_assoc | exact H1].
    + apply Hb. exists x2. auto.
Qed.

Lemma denotes_opt (a : matcher) (La : list ascii -> Prop) :
  denotes a La -> denotes (m_opt a) (fun x => La x \/ x = []).
Proof.
  unfold denotes in *. intros Ha s r. unfold m_opt. rewrite in_app_iff, Ha. simpl. split.
  - intros [[x [Hx Hl]] | [<- | []]].
    + exists x. auto.
    + exists []. auto.
  - intros [x [Hx [Hl | ->]]].
    + left. exists x. auto.
    + right. left. simpl in Hx. exact Hx.
Qed.

Lemma denotes_star_class (p : ascii -> bool) :
  denotes (m_star_class p) (Forall (fun c => p c = true)).
Proof.
  intros s. induction s as [| c t IH]; intros r; simpl.
  - split.
    + intros [<- | []]. exists []. auto.
    + intros [x [Hx _]]. symmetry in Hx. apply app_eq_nil in Hx as [-> ->]. auto.
  - destruct (p c) eqn:Hp.
    + rewrite in_app_iff, IH. simpl. split.
      * intros [[x [-> Hx]] | [<- | []]].
        -- exists (c :: x). split; [reflexivity | constructor; auto].
        -- exists []. split; [reflexivity | constructor].
      * intros [[| c' x] [Hx Hf]].
        -- right. left. exact Hx.
        -- injection Hx as <- ->. inversion Hf. left. exists x. auto.
    + simpl. split.
      * intros [<- | []]. exists []. split; [reflexivity | constructor].
      * intros [[| c' x] [Hx Hf]].
        -- left. exact Hx.
        -- injection Hx as <- ->. inversion Hf. congruence.
Qed.

Lemma denotes_rep (n : nat) (a : matcher) (La : list ascii -> Prop) :
  denotes a La -> denotes (m_rep n a) (rep_lang n La).
Proof.
  intros Ha. induction n as [| n IH]; simpl.
  - intros s r. simpl. split.
    + intros [<- | []]. exists []. auto.
    + intros [x [-> ->]]. left. reflexivity.
  - apply denotes_seq; assumption.
Qed.

Lemma rep_class_digits (n : nat) (x : list ascii) :
  rep_lang n (fun x => exists c, x = [c] /\ is_digit c = true) x <-> digit_group n x.
Proof.
  unfold digit_group. revert x. induction n as [| n IH]; intros x; simpl.
  - split.
    + intros ->. auto.
    + intros [Hl _]. destruct x; [reflexivity | discriminate].
  - split.
    + intros [x1 [x2 [-> [[c [-> Hc]] Hr]]]]. apply IH in Hr as [Hl Hf].
      simpl. split; [congruence | constructor; auto].
    + intros [Hl Hf]. destruct x as [| c x]; [discriminate |].
      inversion Hf. exists [c], x. split; [reflexivity |].
      split; [exists c; auto | apply IH; split; simpl in Hl; auto].
Qed.

Lemma denotes_digits (n : nat) : denotes (m_rep n (m_class is_digit)) (digit_group n).
Proof.
  eapply denotes_ext; [apply rep_class_digits | apply denotes_rep, denotes_class].
Qed.

Lemma denotes_spaces : denotes (m_star_class is_space) all_spaces.
Proof. apply denotes_star_class. Qed.

Lemma denotes_opt_sep :
  denotes (m_opt (m_class sep_class))
    (fun o => o = [] \/ exists c, o = [c] /\ sep_class c = true).
Proof.
  eapply denotes_ext; [| apply denotes_opt, denotes_class].
  intros x. simpl. tauto.
Qed.

Lemma denotes_nil : denotes (fun s => [s]) (fun x => x = []).
Proof.
  intros s r. simpl. split.
  - intros [<- | []]. exists []. auto.
  - intros [x [-> ->]]. left. reflexivity.
Qed.

Lemma denotes_prefix :
  denotes (m_opt (m_seqs [ m_opt (m_char "+"); m_char "1";
                           m_star_class is_space; m_class prefix_sep_class ]))
    (country_prefix prefix_sep_class).
Proof.
  pose proof (denotes_opt _ _
    (denotes_seq _ _ _ _ (denotes_opt _ _ (denotes_class (Ascii.eqb "+")))
      (denotes_seq _ _ _ _ (denotes_class (Ascii.eqb "1"))
        (denotes_seq _ _ _ _ denotes_spaces
          (denotes_seq _ _ _ _ (denotes_class prefix_sep_class) denotes_nil))))) as H.
  eapply denotes_ext; [| exact H].
  intros x. unfold country_prefix. split.
  - intros [[x1 [x2 [-> [Hp [y1 [y2 [-> [[c1 [-> Hc1]]
             [z1 [z2 [-> [Hs [w1 [w2 [-> [[c [-> Hc]] ->]]]]]]]]]]]]]]]] | ->];
      [right | left; reflexivity].
    apply Ascii.eqb_eq in Hc1. subst c1.
    exists x1, z1, c. split; [reflexivity |]. split; [| auto].
    destruct Hp as [[c0 [-> H0]] | ->]; [right | left; reflexivity].
    apply Ascii.eqb_eq in H0. subst c0. reflexivity.
  - intros [-> | [plus [sp [c [-> [Hp [Hs Hc]]]]]]]; [right; reflexivity | left].
    exists plus, ("1"%char :: sp ++ [c])%list. split; [reflexivity |]. split.
    { destruct Hp as [-> | ->]; [right; reflexivity |].
      left. exists "+"%char. split; [reflexivity | apply Ascii.eqb_refl]. }
    exists ["1"%char], (sp ++ [c])%list. split; [reflexivity |].
    split; [exists "1"%char; split; [reflexivity | apply Ascii.eqb_refl] |].
    exists sp, [c]. split; [reflexivity |]. split; [exact Hs |].
    exists [c], []. split; [reflexivity |]. split; [exists c; auto | reflexivity].
Qed.

Lemma m_end_spec (r : list ascii) : m_end r = true <-> r = [] \/ r = ["010"%char].
Proof.
  split; [| intros [-> | ->]; reflexivity].
  intros H. destruct r as [| c [| d r]]; [left; reflexivity | |];
    destruct c as [[] [] [] [] [] [] [] []]; simpl in H; try discriminate; auto.
Qed.

(** [re.match(PHONE_PATTERN, s)] succeeds exactly on the phone shapes whose
    country prefix ends in a character of the range [[ -.]]. *)
Lemma phone_match_shape (s : string) :
  phone_match s = true <-> phone_shape prefix_sep_class (list_ascii_of_string s).
Proof.
  unfold phone_match. generalize (list_ascii_of_string s). intros l.
  rewrite existsb_exists.
  pose proof (denotes_seq _ _ _ _ denotes_prefix
    (denotes_seq _ _ _ _ (denotes_digits 3)
    (denotes_seq _ _ _ _ denotes_spaces
    (denotes_seq _ _ _ _ denotes_opt_sep
    (denotes_seq _ _ _ _ (denotes_digits 3)
    (denotes_seq _ _ _ _ denotes_spaces
    (denotes_seq _ _ _ _ denotes_opt_sep
    (denotes_seq _ _ _ _ (denotes_digits 4)
    (denotes_seq _ _ _ _ denotes_spaces denotes_nil))))))))) as H.
  split.
  - intros [r [Hr He]]. apply m_end_spec in He.
    destruct (proj1 (H l r) Hr) as
      [x [-> [pre [x2 [-> [Hpre [d1 [x3 [-> [Hd1 [sp1 [x4 [-> [Hsp1
       [o1 [x5 [-> [Ho1 [d2 [x6 [-> [Hd2 [sp2 [x7 [-> [Hsp2
       [o2 [x8 [-> [Ho2 [d3 [x9 [-> [Hd3 [tl [x10 [-> [Htl ->]]]]]]]]]]]]]]]]]]]]]]]]]]]]]]]]]]]]]].
    exists pre, d1, (sp1 ++ o1)%list, d2, (sp2 ++ o2)%list, d3, tl, r.
    split; [rewrite ?app_nil_r, <- ?app_assoc; reflexivity |].
    split; [exact Hpre |]. split; [exact Hd1 |].
    split; [exists sp1, o1; auto |]. split; [exact Hd2 |].
    split; [exists sp2, o2; auto |]. split; [exact Hd3 |]. auto.
  - intros [pre [d1 [g1 [d2 [g2 [d3 [tl [nl [-> [Hpre [Hd1 [[sp1 [o1 [-> [Hs1 Ho1]]]]
             [Hd2 [[sp2 [o2 [-> [Hs2 Ho2]]]] [Hd3 [Htl Hnl]]]]]]]]]]]]]]]].
    exists nl. split; [| apply m_end_spec; exact Hnl].
    apply (proj2 (H _ nl)).
    exists (pre ++ d1 ++ sp1 ++ o1 ++ d2 ++ sp2 ++ o2 ++ d3 ++ tl ++ [])%list.
    split; [rewrite ?app_nil_r, <- ?app_assoc; reflexivity |].
    do 9 (do 2 eexists; split; [reflexivity | split; [eassumption |]]).
    reflexivity.
Qed.

Lemma sep_class_prefix (c : ascii) : sep_class c = true -> prefix_sep_class c = true.
Proof. destruct c as [[] [] [] [] [] [] [] []]; vm_compute; congruence. Qed.

Lemma prefix_sep_not_digit (c : ascii) : prefix_sep_class c = true -> negb (is_digit c) = true.
Proof. destruct c as [[] [] [] [] [] [] [] []]; vm_compute; congruence. Qed.

Lemma country_prefix_mono (p q : ascii -> bool) (l : list ascii) :
  (forall c, p c = true -> q c = true) -> country_prefix p l -> country_prefix q l.
Proof.
  intros Hpq [-> | [plus [sp [c [-> [Hp [Hs Hc]]]]]]]; [left; reflexivity | right].
  exists plus, sp, c. auto.
Qed.

Lemma phone_shape_mono (p q : ascii -> bool) (l : list ascii) :
  (forall c, p c = true -> q c = true) -> phone_shape p l -> phone_shape q l.
Proof.
  intros Hpq [pre [d1 [g1 [d2 [g2 [d3 [tl [nl [Hl [Hpre Hrest]]]]]]]]]].
  exists pre, d1, g1, d2, g2, d3, tl, nl. split; [exact Hl |].
  split; [eapply country_prefix_mono; eauto | exact Hrest].
Qed.

(* ================================================================== *)
(** ** Claims about the phone pattern and error collection *)

(** C7 (corrected): every phone shape whose country prefix (if any) ends in a space,
    dot or hyphen is accepted by the phone validator; every string the
    validator accepts is a phone shape whose country prefix (if any) ends in
    a non-digit character.  A phone shape is an optional [1] or [+1]
    followed by spaces and one separator character, 3 digits, spaces and at
    most one of space/dot/hyphen, 3 digits, the same kind of gap, 4 digits,
    trailing spaces and at most one final newline. *)
Theorem phone_pattern_shape :
  (forall l, phone_shape sep_class l -> phone_match (string_of_list_ascii l) = true) /\
  (forall s, phone_match s = true ->
     phone_shape (fun c => negb (is_digit c)) (list_ascii_of_string s)).
Proof.
  split.
  - intros l H. apply phone_match_shape. rewrite list_ascii_of_string_of_list_ascii.
    eapply phone_shape_mono; [apply sep_class_prefix | exact H].
  - intros s H. apply phone_match_shape in H.
    eapply phone_shape_mono; [apply prefix_sep_not_digit | exact H].
Qed.

Lemma phone_pattern_shape_witness :
  phone_shape sep_class (list_ascii_of_string "+1 555.123-4567") /\
  phone_match "+1 555.123-4567" = true.
Proof.
  assert (Hs : phone_shape sep_class (list_ascii_of_string "+1 555.123-4567")).
  { exists ["+"%char; "1"%char; " "%char], ["5"%char; "5"%char; "5"%char], ["."%char],
      ["1"%char; "2"%char; "3"%char], ["-"%char], ["4"%char; "5"%char; "6"%char; "7"%char],
      [], [].
    split; [reflexivity |].
    split; [right; exists ["+"%char], [], " "%char; split; [reflexivity |];
            split; [right; reflexivity | split; [constructor | reflexivity]] |].
    split; [split; [reflexivity | repeat constructor] |].
    split; [exists [], ["."%char]; split; [reflexivity |];
            split; [constructor | right; exists "."%char; split; reflexivity] |].
    split; [split; [reflexivity | repeat constructor] |].
    split; [exists [], ["-"%char]; split; [reflexivity |];
            split; [constructor | right; exists "-"%char; split; reflexivity] |].
    split; [split; [reflexivity | repeat constructor] |].
    split; [constructor | left; reflexivity]. }
  split; [exact Hs |].
  exact (proj1 phone_pattern_shape _ Hs).
Defined.

(** C7 (counterexample): ["555 - 123-4567"] (gaps of spaces and hyphens)
    and ["15551234567"] (the [1] prefix with empty gaps) have the form the
    specification describes, and the phone validator rejects both. *)
Lemma phone_spec_form_rejected :
  spec_phone_form (list_ascii_of_string "555 - 123-4567") /\
  phone_match "555 - 123-4567" = false /\
  spec_phone_form (list_ascii_of_string "15551234567") /\
  phone_match "15551234567" = false.
Proof.
  split; [| split; [vm_compute; reflexivity | split; [| vm_compute; reflexivity]]].
  - exists [], [], ["5"%char; "5"%char; "5"%char], [" "%char; "-"%char; " "%char],
      ["1"%char; "2"%char; "3"%char], ["-"%char], ["4"%char; "5"%char; "6"%char; "7"%char].
    split; [reflexivity |]. split; [left; reflexivity |].
    repeat split; repeat constructor.
  - exists ["1"%char], [], ["5"%char; "5"%char; "5"%char], [],
      ["1"%char; "2"%char; "3"%char], [], ["4"%char; "5"%char; "6"%char; "7"%char].
    split; [reflexivity |]. split; [right; left; reflexivity |].
    repeat split; repeat constructor.
Qed.

(** C8 (witness): the malformed phone of [two_violations_request] is
    reported at [phone]; and a [totalQty] of -1 that also differs from the
    item sum is reported with the [ge=0] message only. *)
Lemma errors_reported_per_field_witness :
  (fails (validate_phone_field two_violations_request) = true /\
   exists e, In e (errs_of (validate_OrderRequest sample_email_ok two_violations_request))
             /\ loc e = ["phone"]) /\
  errs_at ["order"; "totalQty"]
    (errs_of (validate_OrderRequest sample_email_ok negative_qty_request)) =
    [ {| loc := ["order"; "totalQty"]; msg := GE0_MSG |} ].
Proof.
  split.
  - pose proof (errors_reported_per_field sample_email_ok two_violations_request) as H.
    cbv zeta in H. destruct H as [H _].
    split; [vm_compute; reflexivity |].
    apply (proj1 (proj1 (H "phone" _ (or_introl eq_refl)))).
    vm_compute. reflexivity.
  - pose proof (errors_reported_per_field sample_email_ok negative_qty_request) as H.
    cbv zeta in H. destruct H as (_ & _ & _ & _ & _ & H).
    rewrite (proj1 (H negative_qty_cart eq_refl)).
    vm_compute. reflexivity.
Defined.

(** C8 (counterexample): a request body with a malformed phone and a
    missing [verification] field fails with both errors, not only the first. *)
Lemma two_violations_both_reported :
  validate_OrderRequest sample_email_ok two_violations_request =
    Err [ {| loc := ["phone"]; msg := PHONE_MSG |};
          {| loc := ["verification"]; msg := MISSING_MSG |} ].
Proof. vm_compute. reflexivity. Qed.

(** C4 (witness): on a Sunday the sample order is refused by the hours gate. *)
Lemma business_hours_gate_witness :
  process_order (sample_env Sunday 10 human_reply "") (sample_request "") =
    (http_error 400 BUSINESS_HOURS_MSG, []).
Proof.
  apply (proj1 (business_hours_gate (sample_env Sunday 10 human_reply "") (sample_request ""))).
  left. reflexivity.
Defined.

(* ================================================================== *)
(** ** Further properties of the handler *)

Lemma validate_business_hours_passes (env : Env) :
  fst (validate_business_hours env) = true -> within_business_hours env.
Proof.
  unfold validate_business_hours, within_business_hours.
  destruct (env_weekday env); simpl; try discriminate;
    rewrite Z.geb_leb;
    destruct (Z.ltb_spec (env_hour env) 8); destruct (Z.leb_spec 20 (env_hour env));
    simpl; try discriminate; intros _; split; try discriminate; lia.
Qed.

Lemma py_split_nonempty (sep : ascii) (s : string) : py_split sep s <> [].
Proof.
  induction s as [| c t IH]; simpl; [discriminate |].
  destruct (py_split sep t) as [| h r]; [congruence |].
  destruct (Ascii.eqb c sep); discriminate.
Qed.

(** A string without [sep] splits into itself. *)
Lemma py_split_no_sep (sep : ascii) (s : string) :
  forallb (fun c => negb (Ascii.eqb c sep)) (list_ascii_of_string s) = true ->
  py_split sep s = [s].
Proof.
  induction s as [| c t IH]; simpl; [reflexivity |].
  intros H. apply andb_prop in H as [Hc Ht]. rewrite (IH Ht).
  destruct (Ascii.eqb c sep); [discriminate | reflexivity].
Qed.

Lemma py_split_app_sep (sep : ascii) (a d : string) :
  exists pre, pre <> [] /\ py_split sep (a ++ String sep d) = (pre ++ py_split sep d)%list.
Proof.
  induction a as [| x a [pre [Hp IH]]]; simpl.
  - rewrite Ascii.eqb_refl.
    destruct (py_split sep d) as [| h r] eqn:E; [exfalso; apply (py_split_nonempty sep d E) |].
    exists [""]. split; [discriminate | reflexivity].
  - rewrite IH. destruct pre as [| h pre]; [congruence |]. simpl.
    destruct (Ascii.eqb x sep).
    + exists ("" :: h :: pre). split; [discriminate | reflexivity].
    + exists (String x h :: pre). split; [discriminate | reflexivity].
Qed.

Lemma last_app_nonempty {A} (l l' : list A) (d : A) :
  l' <> [] -> last (l ++ l') d = last l' d.
Proof.
  intros H. induction l as [| x l IH]; [reflexivity |].
  simpl. rewrite IH. destruct (l ++ l')%list eqn:E; [| reflexivity].
  apply app_eq_nil in E as [_ E]. congruence.
Qed.

(** The last piece of [(a + sep + d).split(sep)] is the last piece of
    [d.split(sep)]. *)
Lemma py_split_last_app (sep : ascii) (a d : string) :
  py_last (py_split sep (a ++ String sep d)) = py_last (py_split sep d).
Proof.
  unfold py_last. destruct (py_split_app_sep sep a d) as [pre [_ ->]].
  apply last_app_nonempty, py_split_nonempty.
Qed.

(** Everything [process_order] does once the gates before the dispatch
    have passed. *)
Lemma process_order_gates (env : Env) (r : OrderRequest) :
  snd (process_order env r) <> [] ->
  within_business_hours env /\ verification r = "" /\
  (exists v, verify_turnstile_token env (cf_token r) = Some v /\ jtruthy v = true) /\
  is_domain_real env (py_lower (email r)) = true.
Proof.
  unfold process_order.
  destruct (validate_business_hours env) as [ok msg] eqn:Eh.
  destruct ok; simpl; [| intros H; exfalso; apply H; reflexivity].
  assert (Hw : within_business_hours env)
    by (apply validate_business_hours_passes; rewrite Eh; reflexivity).
  destruct (verification r) as [| c t] eqn:Ev; simpl;
    [| intros H; exfalso; apply H; reflexivity].
  destruct (verify_turnstile_token env (cf_token r)) as [v |];
    [| intros H; exfalso; apply H; reflexivity].
  destruct (jtruthy v) eqn:Ej; simpl; [| intros H; exfalso; apply H; reflexivity].
  destruct (is_domain_real env (py_lower (email r))) eqn:Ed; simpl;
    [| intros H; exfalso; apply H; reflexivity].
  intros _. split; [exact Hw |]. split; [reflexivity |]. split; [| reflexivity].
  exists v. auto.
Qed.

(** The answers [process_order] can give, each with its trace. *)
Lemma process_order_cases (env : Env) (r : OrderRequest) :
  let id := make_order_id (env_uuid4 env) in
  (fst (validate_business_hours env) = false /\
   process_order env r = (http_error 400 BUSINESS_HOURS_MSG, [])) \/
  (fst (validate_business_hours env) = true /\
   (process_order env r = (order_placed id, []) \/
    process_order env r = (http_error 500 NETWORK_MSG, []) \/
    process_order env r = (http_error 400 SECURITY_MSG, []) \/
    process_order env r = (http_error 400 INVALID_EMAIL_MSG, []) \/
    process_order env r = (http_error 500 SEND_FAILED_MSG, snd (send_order_emails env r id)) \/
    process_order env r = (order_placed id, snd (send_order_emails env r id)))).
Proof.
  intros id. unfold process_order.
  destruct (validate_business_hours env) as [ok msg] eqn:Eh.
  destruct ok; simpl.
  - right. split; [reflexivity |]. fold id.
    destruct (str_truthy (verification r)); [left; reflexivity |].
    destruct (verify_turnstile_token env (cf_token r)) as [v |];
      [| right; left; reflexivity].
    destruct (jtruthy v); simpl; [| right; right; left; reflexivity].
    destruct (is_domain_real env (py_lower (email r))); simpl;
      [| right; right; right; left; reflexivity].
    destruct (send_order_emails env r id) as [[] calls]; simpl; auto 6.
  - left. split; [reflexivity |].
    revert Eh. unfold validate_business_hours.
    destruct (String.eqb _ "Sunday"); [congruence |].
    destruct ((env_hour env <? 8)%Z || (env_hour env >=? 20)%Z); congruence.
Qed.

(* ================================================================== *)
(** ** Further properties: domain check, gates and answers *)

(** X2: the domain [is_domain_real] checks is the text after the last [@]
    of the address, and the whole address when it holds no [@]. *)
Theorem email_domain_after_last_at (a d : string) :
  forallb (fun c => negb (Ascii.eqb c "@")) (list_ascii_of_string d) = true ->
  email_domain (a ++ "@" ++ d) = d /\ email_domain d = d.
Proof.
  intros H. unfold email_domain. simpl.
  rewrite py_split_last_app. rewrite (py_split_no_sep _ _ H). auto.
Qed.

Lemma email_domain_after_last_at_witness :
  email_domain ("a@b" ++ "@" ++ "example.com") = "example.com" /\
  email_domain "example.com" = "example.com".
Proof. apply email_domain_after_last_at. reflexivity. Defined.

(** X3: [process_order] calls SES only for a request that passed every
    gate: business hours, an empty honeypot, a truthy Turnstile answer and
    a real domain; and every email goes to [BUSINESS_EMAIL] or to the
    lower-cased customer address. *)
Theorem emails_only_after_all_checks (env : Env) (r : OrderRequest) :
  snd (process_order env r) <> [] ->
  within_business_hours env /\ verification r = "" /\
  (exists v, verify_turnstile_token env (cf_token r) = Some v /\ jtruthy v = true) /\
  is_domain_real env (py_lower (email r)) = true /\
  Forall (fun c => ses_dest c = env_business_email env \/ ses_dest c = py_lower (email r))
    (snd (process_order env r)).
Proof.
  intros H. destruct (process_order_gates env r H) as [Hw [Hv [Ht Hd]]].
  do 3 (split; [assumption |]). split; [exact Hd |].
  destruct (process_order_cases env r) as [[_ E] | [_ E]];
    [rewrite E; constructor |].
  assert (Hs : Forall (fun c => ses_dest c = env_business_email env \/
                                ses_dest c = py_lower (email r))
                 (snd (send_order_emails env r (make_order_id (env_uuid4 env))))).
  { unfold send_order_emails.
    destruct (env_ses_send env (env_business_email env) _);
      [destruct (env_ses_send env (py_lower (email r)) _) |];
      repeat apply Forall_cons; try apply Forall_nil; simpl; auto. }
  destruct E as [E | [E | [E | [E | [E | E]]]]]; rewrite E; simpl;
    first [exact Hs | constructor].
Qed.

Lemma emails_only_after_all_checks_witness :
  let env := sample_env Monday 9 human_reply "" in
  snd (process_order env (sample_request "")) <> [] /\
  is_domain_real env (py_lower (email (sample_request ""))) = true.
Proof.
  intros env. assert (H : snd (process_order env (sample_request "")) <> [])
    by (vm_compute; discriminate).
  split; [exact H |].
  exact (proj1 (proj2 (proj2 (proj2 (emails_only_after_all_checks env _ H))))).
Defined.

(** X4: every answer of [process_order] is one of six: 200 with
    success=true, the order id and "Order placed successfully"; 400 with
    the business-hours, "Security check failed" or invalid-email detail;
    500 with the dispatch-failure or the network-error detail. *)
Theorem process_order_responses (env : Env) (r : OrderRequest) :
  let resp := fst (process_order env r) in
  resp = order_placed (make_order_id (env_uuid4 env)) \/
  resp = http_error 400 BUSINESS_HOURS_MSG \/
  resp = http_error 400 SECURITY_MSG \/
  resp = http_error 400 INVALID_EMAIL_MSG \/
  resp = http_error 500 SEND_FAILED_MSG \/
  resp = http_error 500 NETWORK_MSG.
Proof.
  intros resp. unfold resp.
  destruct (process_order_cases env r) as [[_ E] | [_ E]]; [rewrite E; auto |].
  destruct E as [E | [E | [E | [E | [E | E]]]]]; rewrite E; simpl; auto 7.
Qed.

(** X5: a request that reaches the Turnstile check gets 400 "Security
    check failed" when Cloudflare's JSON object has no [success] key, and
    500 "Network error. Please try again." when the JSON body is not an
    object ([.get] raises). *)
Theorem turnstile_edge_replies (env : Env) (r : OrderRequest) :
  within_business_hours env ->
  verification r = "" ->
  (forall fs, env_turnstile env (cf_token r) = TurnstileJson (JObj fs) ->
     jlookup "success" fs = None ->
     process_order env r = (http_error 400 SECURITY_MSG, [])) /\
  (forall v, env_turnstile env (cf_token r) = TurnstileJson v ->
     (forall fs, v <> JObj fs) ->
     process_order env r = (http_error 500 NETWORK_MSG, [])).
Proof.
  intros Hw Hv. unfold process_order.
  rewrite validate_business_hours_open by exact Hw. cbv beta iota zeta.
  rewrite Hv. simpl. unfold verify_turnstile_token. split.
  - intros fs Ht Hs. rewrite Ht, Hs. reflexivity.
  - intros v Ht Hn. rewrite Ht.
    destruct v; try reflexivity. exfalso. eapply Hn. reflexivity.
Qed.

Lemma turnstile_edge_replies_witness :
  let env := sample_env Monday 9 (TurnstileJson (JObj [("error-codes", JList [])])) "" in
  process_order env (sample_request "") = (http_error 400 SECURITY_MSG, []).
Proof.
  intros env.
  apply (proj1 (turnstile_edge_replies env (sample_request "")
                  ltac:(split; [discriminate | simpl; lia])
                  ltac:(vm_compute; reflexivity))
           [("error-codes", JList [])]); reflexivity.
Defined.

(** X6: a bot (non-empty honeypot) gets exactly the answer a human whose
    order went through gets: same status, same body, same order id. *)
Theorem bot_reply_indistinguishable (env : Env) (r r' : OrderRequest) :
  str_truthy (verification r) = true ->
  status_code (fst (process_order env r')) = 200%Z ->
  fst (process_order env r) = fst (process_order env r').
Proof.
  intros Hb H200.
  destruct (process_order_cases env r') as [[_ E] | [Hh E]];
    [rewrite E in H200; discriminate |].
  assert (E' : fst (process_order env r') = order_placed (make_order_id (env_uuid4 env))).
  { destruct E as [E | [E | [E | [E | [E | E]]]]]; rewrite E in *;
      simpl in *; try discriminate; reflexivity. }
  rewrite E'. unfold process_order.
  destruct (validate_business_hours env) as [ok msg]. simpl in Hh. subst ok.
  simpl. rewrite Hb. reflexivity.
Qed.

Lemma bot_reply_indistinguishable_witness :
  let env := sample_env Monday 9 human_reply "" in
  fst (process_order env (sample_request "bot")) = fst (process_order env (sample_request "")).
Proof.
  intros env. apply bot_reply_indistinguishable; vm_compute; reflexivity.
Defined.

(* ------------------------------------------------------------------ *)
(** Order ids and the top 32 bits of the uuid *)

Lemma hex_upper_inj (a b : Z) :
  (0 <= a < 16)%Z -> (0 <= b < 16)%Z ->
  char_upper (hex_digit a) = char_upper (hex_digit b) -> a = b.
Proof.
  intros Ha Hb. rewrite <- (Z2Nat.id a), <- (Z2Nat.id b) by lia.
  assert (Hka : (Z.to_nat a < 16)%nat) by lia.
  assert (Hkb : (Z.to_nat b < 16)%nat) by lia.
  revert Hka Hkb. generalize (Z.to_nat a) (Z.to_nat b). clear a b Ha Hb.
  intros i j Hi Hj.
  do 16 (destruct i as [| i]; [do 16 (destruct j as [| j]; [vm_compute; congruence |]); lia |]).
  lia.
Qed.

Lemma nib_top (u : Z) (i : nat) :
  (i < 8)%nat ->
  Z.land (Z.shiftr u (4 * (31 - Z.of_nat i))) 15 =
  Z.land (Z.shiftr (Z.shiftr u 96) (4 * (7 - Z.of_nat i))) 15.
Proof. intros Hi. rewrite Z.shiftr_shiftr by lia. do 2 f_equal. lia. Qed.

Lemma make_order_id_nibbles (u : Z) :
  make_order_id u =
  fold_right String EmptyString
    (map (fun i => char_upper (hex_digit (Z.land (Z.shiftr u (4 * (31 - Z.of_nat i))) 15)))
         (seq 0 8)).
Proof. unfold make_order_id, uuid_str_prefix8, py_upper. rewrite str_map_fold, map_map. reflexivity. Qed.

Lemma map_eq_in {A B} (f g : A -> B) (l : list A) :
  map f l = map g l -> forall a, In a l -> f a = g a.
Proof.
  induction l as [| x l IH]; simpl; [tauto |].
  intros H a [<- | Ha]; injection H as H1 H2; [exact H1 | exact (IH H2 a Ha)].
Qed.

(** A 32-bit value is fixed by its eight nibbles. *)
Lemma nibbles_determine (x y : Z) :
  (0 <= x < 2 ^ 32)%Z -> (0 <= y < 2 ^ 32)%Z ->
  (forall k, (0 <= k < 8)%Z ->
     Z.land (Z.shiftr x (4 * k)) 15 = Z.land (Z.shiftr y (4 * k)) 15) ->
  x = y.
Proof.
  intros Hx Hy H. apply Z.bits_inj'. intros n Hn.
  destruct (Z.lt_ge_cases n 32) as [Hlt | Hge].
  - assert (Hd : n = (4 * (n / 4) + n mod 4)%Z) by (apply Z.div_mod; lia).
    assert (Hm : (0 <= n mod 4 < 4)%Z) by (apply Z.mod_pos_bound; lia).
    assert (Hk : (0 <= n / 4 < 8)%Z) by (split; [apply Z.div_pos | apply Z.div_lt_upper_bound]; lia).
    assert (Hb : forall z, Z.testbit z n =
                   Z.testbit (Z.land (Z.shiftr z (4 * (n / 4))) 15) (n mod 4)).
    { intros z. rewrite Z.land_spec, Z.shiftr_spec by lia.
      change 15%Z with (Z.ones 4). rewrite Z.testbit_ones by lia.
      replace ((0 <=? n mod 4) && (n mod 4 <? 4))%Z with true
        by (symmetry; apply andb_true_iff; split; [apply Z.leb_le | apply Z.ltb_lt]; lia).
      rewrite andb_true_r. f_equal. lia. }
    rewrite !Hb, H by exact Hk. reflexivity.
  - rewrite <- (Z.mod_small x (2 ^ 32)), <- (Z.mod_small y (2 ^ 32)) by lia.
    rewrite !Z.mod_pow2_bits_high by lia. reflexivity.
Qed.

Lemma top32_bound (u : Z) : (0 <= u < 2 ^ 128)%Z -> (0 <= Z.shiftr u 96 < 2 ^ 32)%Z.
Proof.
  intros Hu. rewrite Z.shiftr_div_pow2 by lia.
  split; [apply Z.div_pos; lia | apply Z.div_lt_upper_bound; [lia |]].
  change (2 ^ 96 * 2 ^ 32)%Z with (2 ^ 128)%Z. lia.
Qed.

(** X7: for two uuid4 values (128-bit), the order ids are equal exactly
    when the top 32 bits of the uuids are equal: the id keeps those 32 bits
    and nothing else. *)
Theorem order_id_top32 (u u' : Z) :
  (0 <= u < 2 ^ 128)%Z -> (0 <= u' < 2 ^ 128)%Z ->
  make_order_id u = make_order_id u' <-> Z.shiftr u 96 = Z.shiftr u' 96.
Proof.
  intros Hu Hu'. rewrite !make_order_id_nibbles. split.
  - intros H. apply (f_equal list_ascii_of_string) in H. rewrite !list_ascii_fold in H.
    apply nibbles_determine; [apply top32_bound; exact Hu | apply top32_bound; exact Hu' |].
    intros k Hk.
    pose proof (map_eq_in _ _ _ H (Z.to_nat (7 - k))) as Hi.
    assert (Hin : In (Z.to_nat (7 - k)) (seq 0 8)) by (apply in_seq; lia).
    specialize (Hi Hin). apply hex_upper_inj in Hi; [| apply land15_bound | apply land15_bound].
    rewrite !nib_top in Hi by lia.
    replace (4 * (7 - Z.of_nat (Z.to_nat (7 - k))))%Z with (4 * k)%Z in Hi by lia.
    exact Hi.
  - intros H. f_equal. apply map_ext_in. intros i Hi. apply in_seq in Hi.
    rewrite !nib_top by lia. rewrite H. reflexivity.
Qed.

Lemma order_id_top32_witness :
  make_order_id 0x9f1c2d3e4b5a69788796a5b4c3d2e1f0%Z =
  make_order_id 0x9f1c2d3e000000000000000000000000%Z.
Proof.
  apply (proj2 (order_id_top32 0x9f1c2d3e4b5a69788796a5b4c3d2e1f0%Z
                                0x9f1c2d3e000000000000000000000000%Z
    ltac:(split; [apply Z.leb_le | apply Z.ltb_lt]; reflexivity)
    ltac:(split; [apply Z.leb_le | apply Z.ltb_lt]; reflexivity))).
  reflexivity.
Defined.

(* ------------------------------------------------------------------ *)
(** What a validated cart satisfies *)

Lemma run_checks_ok {A} (l : list string) (cs : list (check A)) (a v : A) :
  run_checks l cs a = Ok v -> v = a /\ Forall (fun c => c a = None) cs.
Proof.
  induction cs as [| c cs IH]; simpl.
  - intros H. injection H as <-. auto.
  - destruct (c a) eqn:Ec; [discriminate |]. intros H. apply IH in H as [-> H]. auto.
Qed.

Lemma validate_field_ok {A} (l : list string) (tm : string) (c : check A)
    (vs : list (check A)) (r : raw A) (v : A) :
  validate_field l tm c vs r = Ok v ->
  r = RVal v /\ c v = None /\ Forall (fun ch => ch v = None) vs.
Proof.
  unfold validate_field. destruct r as [| | a]; try discriminate.
  intros H. apply run_checks_ok in H as [-> H]. inversion H. auto.
Qed.

Lemma validate_CartItem_ok (l : list string) (r : RawItem) (it : CartItem) :
  validate_CartItem l r = Ok it ->
  (0 < qty it)%Z /\ PrimFloat.leb 0 (price it) = true /\
  PrimFloat.leb 0 (pricePerUnit it) = true.
Proof.
  unfold validate_CartItem.
  destruct (validate_field (l ++ ["qty"]) _ _ _ _) as [q |] eqn:Eq; [| discriminate].
  destruct (validate_field (l ++ ["price"]) _ _ _ _) as [p |] eqn:Ep; [| discriminate].
  destruct (validate_field (l ++ ["pricePerUnit"]) _ _ _ _) as [u |] eqn:Eu; [| discriminate].
  destruct (validate_field (l ++ ["imageUrl"]) _ _ _ _) as [i |] eqn:Ei; [| discriminate].
  intros H. injection H as <-. simpl.
  apply validate_field_ok in Eq as [_ [Hq _]].
  apply validate_field_ok in Ep as [_ [Hp _]].
  apply validate_field_ok in Eu as [_ [Hu _]].
  unfold int_gt0 in Hq. unfold float_ge0 in Hp, Hu.
  destruct (q >? 0)%Z eqn:Hq'; [| discriminate].
  destruct (PrimFloat.leb 0 p); [| discriminate].
  destruct (PrimFloat.leb 0 u); [| discriminate].
  split; [lia | auto].
Qed.

Lemma validate_item_list_ok (l : list string) (its : list (string * RawItem))
    (xs : list (string * CartItem)) :
  validate_item_list l its = Ok xs ->
  map fst xs = map fst its /\
  Forall (fun p => (0 < qty (snd p))%Z /\ PrimFloat.leb 0 (price (snd p)) = true /\
                   PrimFloat.leb 0 (pricePerUnit (snd p)) = true) xs.
Proof.
  revert xs. induction its as [| [k ri] t IH]; intros xs; simpl.
  - intros H. injection H as <-. auto.
  - destruct (validate_CartItem (l ++ [k]) ri) as [it |] eqn:E1;
      destruct (validate_item_list l t) as [rest |] eqn:E2; try discriminate.
    intros H. injection H as <-. destruct (IH rest eq_refl) as [Hk Hf].
    simpl. split; [congruence |]. constructor; [exact (validate_CartItem_ok _ _ _ E1) | exact Hf].
Qed.

(** X8: a cart that passes validation has at least 3 items in total, its
    [totalQty] equals the sum of the item quantities, at least one item,
    every quantity positive and every price and unit price [>= 0], a
    [totalPrice >= 0], and a float difference [abs(sum - totalPrice)] that
    is not above 0.01. *)
Theorem validated_cart_invariants (l : list string) (r : raw RawCart) (c : Cart) :
  validate_Cart l r = Ok c ->
  (3 <= totalQty c)%Z /\
  totalQty c = sum_Z (map (fun p => qty (snd p)) (items c)) /\
  items c <> [] /\
  Forall (fun p => (0 < qty (snd p))%Z /\ PrimFloat.leb 0 (price (snd p)) = true /\
                   PrimFloat.leb 0 (pricePerUnit (snd p)) = true) (items c) /\
  PrimFloat.leb 0 (totalPrice c) = true /\
  PrimFloat.ltb 0.01
    (PrimFloat.abs (PrimFloat.sub (py_sum_floats (map (fun p => price (snd p)) (items c)))
                                  (totalPrice c))) = false.
Proof.
  destruct r as [| | rc]; simpl; try discriminate.
  unfold validate_Cart_fields.
  destruct (validate_items (l ++ ["items"]) (r_items rc)) as [its |] eqn:Ei; [| discriminate].
  destruct (validate_field (l ++ ["totalQty"]) _ _ _ _) as [q |] eqn:Eq; [| discriminate].
  destruct (validate_field (l ++ ["totalPrice"]) _ _ _ _) as [p |] eqn:Ep; [| discriminate].
  intros H. injection H as <-. simpl.
  assert (Hits : Forall (fun p => (0 < qty (snd p))%Z /\ PrimFloat.leb 0 (price (snd p)) = true /\
                   PrimFloat.leb 0 (pricePerUnit (snd p)) = true) its).
  { destruct (r_items rc) as [| | ris]; simpl in Ei; try discriminate.
    exact (proj2 (validate_item_list_ok _ _ _ Ei)). }
  apply validate_field_ok in Eq as [_ [Hge Hmin]].
  apply validate_field_ok in Ep as [_ [Hpge Hp]].
  inversion Hmin as [| ? ? Hm Hq']. inversion Hq' as [| ? ? Ht _].
  inversion Hp as [| ? ? Hpr _].
  unfold validate_min_quantity in Hm. unfold validate_total_qty in Ht.
  unfold validate_total_price in Hpr. unfold float_ge0 in Hpge.
  destruct (q <? 3)%Z eqn:Hq3; [discriminate |]. apply Z.ltb_ge in Hq3.
  destruct (Z.eqb (sum_Z (map (fun p => qty (snd p)) its)) q) eqn:Hs; [| discriminate].
  apply Z.eqb_eq in Hs.
  destruct (PrimFloat.leb 0 p); [| discriminate].
  destruct (PrimFloat.ltb 0.01 _) eqn:Hd; [discriminate |].
  split; [exact Hq3 |]. split; [symmetry; exact Hs |].
  split; [destruct its; [simpl in Hs; lia | discriminate] |].
  auto.
Qed.

Lemma validated_cart_invariants_witness :
  exists c, validate_Cart ["order"] (RVal sample_raw_cart) = Ok c /\ (3 <= totalQty c)%Z.
Proof.
  destruct (validate_Cart ["order"] (RVal sample_raw_cart)) as [c |] eqn:E;
    [| vm_compute in E; discriminate].
  exists c. split; [reflexivity |].
  exact (proj1 (validated_cart_invariants _ _ _ E)).
Defined.


(** X9: when the [items] of a cart fail validation, ['items' not in values]
    and both cross-checks are skipped: none of the reported errors is the
    quantity-mismatch or the price-mismatch error, whatever [totalQty] and
    [totalPrice] are. *)
Theorem cross_checks_skipped_without_items (l : list string) (rc : RawCart) :
  fails (validate_items (l ++ ["items"]) (r_items rc)) = true ->
  Forall (fun e => msg e <> QTY_MISMATCH_MSG /\ msg e <> PRICE_MISMATCH_MSG)
    (errs_of (validate_Cart l (RVal rc))).
Proof.
  set (P := fun m => m <> QTY_MISMATCH_MSG /\ m <> PRICE_MISMATCH_MSG).
  assert (HP : forall m, String.eqb m QTY_MISMATCH_MSG = false ->
                         String.eqb m PRICE_MISMATCH_MSG = false -> P m).
  { intros m H1 H2. split; intros ->; [rewrite String.eqb_refl in H1 | rewrite String.eqb_refl in H2];
      discriminate. }
  assert (H1 : P MISSING_MSG) by (apply HP; reflexivity).
  assert (H2 : P INT_MSG) by (apply HP; reflexivity).
  assert (H3 : P FLOAT_MSG) by (apply HP; reflexivity).
  assert (H4 : P STR_MSG) by (apply HP; reflexivity).
  assert (H5 : P DICT_MSG) by (apply HP; reflexivity).
  assert (H6 : P GT0_MSG) by (apply HP; reflexivity).
  assert (H7 : P GE0_MSG) by (apply HP; reflexivity).
  assert (Hi : Forall (fun e => P (msg e))
                 (errs_of (validate_items (l ++ ["items"]) (r_items rc))))
    by (apply (validate_items_msgs P); assumption).
  assert (Hq : Forall (fun e => P (msg e))
                 (errs_of (validate_field (l ++ ["totalQty"]) INT_MSG int_ge0
                             [validate_min_quantity; validate_total_qty None] (r_totalQty rc)))).
  { apply (validate_field_msgs P); try assumption.
    intros ch Hin x m. simpl in Hin.
    destruct Hin as [<- | [<- | [<- | []]]].
    + unfold int_ge0. destruct (x >=? 0)%Z; intros H; inversion H; apply HP; reflexivity.
    + unfold validate_min_quantity. destruct (x <? 3)%Z; intros H; inversion H;
        apply HP; reflexivity.
    + unfold validate_total_qty. discriminate. }
  assert (Hp : Forall (fun e => P (msg e))
                 (errs_of (validate_field (l ++ ["totalPrice"]) FLOAT_MSG float_ge0
                             [validate_total_price None] (r_totalPrice rc)))).
  { apply (validate_field_msgs P); try assumption.
    intros ch Hin x m. simpl in Hin.
    destruct Hin as [<- | [<- | []]].
    + unfold float_ge0. destruct (PrimFloat.leb 0 x); intros H; inversion H;
        apply HP; reflexivity.
    + unfold validate_total_price. discriminate. }
  intros Hf. unfold validate_Cart, validate_Cart_fields.
  destruct (validate_items (l ++ ["items"]) (r_items rc)) as [its | e]; [discriminate |].
  simpl in Hi. cbv zeta.
  destruct (validate_field (l ++ ["totalQty"]) _ _ _ _),
    (validate_field (l ++ ["totalPrice"]) _ _ _ _);
    simpl in *; rewrite ?Forall_app; auto.
Qed.

(** A cart whose item list is missing, with mismatching totals. *)
Lemma cross_checks_skipped_without_items_witness :
  let rc := {| r_items := RMissing; r_totalQty := RVal 7%Z; r_totalPrice := RVal 1.5%float |} in
  fails (validate_items (["order"] ++ ["items"]) (r_items rc)) = true /\
  Forall (fun e => msg e <> QTY_MISMATCH_MSG /\ msg e <> PRICE_MISMATCH_MSG)
    (errs_of (validate_Cart ["order"] (RVal rc))).
Proof.
  intros rc. assert (H : fails (validate_items (["order"] ++ ["items"]) (r_items rc)) = true)
    by reflexivity.
  split; [exact H | exact (cross_checks_skipped_without_items ["order"] rc H)].
Defined.

(* ------------------------------------------------------------------ *)
(** The digits of an accepted phone number *)

Lemma filter_digits_none (l : list ascii) :
  Forall (fun c => is_digit c = false) l -> filter is_digit l = [].
Proof. induction 1 as [| c l Hc _ IH]; simpl; [reflexivity | rewrite Hc; exact IH]. Qed.

Lemma filter_digits_all (l : list ascii) :
  Forall (fun c => is_digit c = true) l -> filter is_digit l = l.
Proof. induction 1 as [| c l Hc _ IH]; simpl; [reflexivity | rewrite Hc, IH; reflexivity]. Qed.

Lemma spaces_not_digits (l : list ascii) : all_spaces l -> Forall (fun c => is_digit c = false) l.
Proof.
  apply Forall_impl. intros c Hc. unfold is_space in Hc. apply Ascii.eqb_eq in Hc. subst c.
  reflexivity.
Qed.

Lemma sep_not_digit (c : ascii) : sep_class c = true -> is_digit c = false.
Proof. destruct c as [[] [] [] [] [] [] [] []]; vm_compute; congruence. Qed.

Lemma separator_no_digits (g : list ascii) : separator g -> filter is_digit g = [].
Proof.
  intros [sp [o [-> [Hs Ho]]]]. rewrite filter_app, filter_digits_none by (apply spaces_not_digits; exact Hs).
  destruct Ho as [-> | [c [-> Hc]]]; [reflexivity |]. simpl. rewrite (sep_not_digit c Hc). reflexivity.
Qed.

Lemma country_prefix_digits (pre : list ascii) :
  country_prefix prefix_sep_class pre -> filter is_digit pre = [] \/ filter is_digit pre = ["1"%char].
Proof.
  intros [-> | [plus [sp [c [-> [Hp [Hs Hc]]]]]]]; [left; reflexivity | right].
  rewrite filter_app. destruct Hp as [-> | ->]; simpl;
    rewrite filter_app, filter_digits_none by (apply spaces_not_digits; exact Hs); simpl;
    apply prefix_sep_not_digit in Hc; destruct (is_digit c); try discriminate; reflexivity.
Qed.

(** X10: a phone number the validator accepts holds exactly ten digits, or
    eleven whose first is the country code [1]: the separators, spaces,
    [+] and an optional final newline add no digit. *)
Theorem accepted_phone_digits (s : string) :
  phone_match s = true ->
  exists d, List.length d = 10%nat /\ Forall (fun c => is_digit c = true) d /\
    (filter is_digit (list_ascii_of_string s) = d \/
     filter is_digit (list_ascii_of_string s) = ("1"%char :: d)%list).
Proof.
  intros H. apply phone_match_shape in H.
  destruct H as [pre [d1 [g1 [d2 [g2 [d3 [tl [nl [-> [Hpre [[L1 F1] [Hg1 [[L2 F2] [Hg2
                 [[L3 F3] [Htl Hnl]]]]]]]]]]]]]]]].
  exists (d1 ++ d2 ++ d3)%list.
  split; [rewrite !length_app; lia |]. split; [rewrite !Forall_app; auto |].
  rewrite !filter_app, (filter_digits_all d1 F1), (filter_digits_all d2 F2),
    (filter_digits_all d3 F3), (separator_no_digits g1 Hg1), (separator_no_digits g2 Hg2),
    (filter_digits_none tl (spaces_not_digits tl Htl)).
  replace (filter is_digit nl) with (@nil ascii) by (destruct Hnl as [-> | ->]; reflexivity).
  rewrite !app_nil_r. simpl.
  destruct (country_prefix_digits pre Hpre) as [-> | ->]; [left | right]; reflexivity.
Qed.

Lemma accepted_phone_digits_witness :
  exists d, List.length d = 10%nat /\ Forall (fun c => is_digit c = true) d /\
    (filter is_digit (list_ascii_of_string "+1-555-123-4567") = d \/
     filter is_digit (list_ascii_of_string "+1-555-123-4567") = ("1"%char :: d)%list).
Proof.
  exact (accepted_phone_digits "+1-555-123-4567" ltac:(vm_compute; reflexivity)).
Defined.

(* ------------------------------------------------------------------ *)
(** What the email bodies contain *)

Lemma str_append_assoc (a b c : string) : a ++ b ++ c = (a ++ b) ++ c.
Proof. induction a as [| x a IH]; simpl; [reflexivity | rewrite IH; reflexivity]. Qed.

Lemma prefix_nil (h : string) : is_prefix EmptyString h.
Proof. exists h. reflexivity. Qed.

Lemma prefix_cons (c : ascii) (n h : string) :
  is_prefix n h -> is_prefix (String c n) (String c h).
Proof. intros [b ->]. exists b. reflexivity. Qed.

Lemma prefix_app (v n h : string) : is_prefix n h -> is_prefix (v ++ n) (v ++ h).
Proof. intros [b ->]. exists b. apply str_append_assoc. Qed.

Lemma prefix_var (v h : string) : is_prefix v (v ++ h).
Proof. exists h. reflexivity. Qed.

Lemma substring_of_prefix (n h : string) : is_prefix n h -> substring n h.
Proof. intros [b ->]. exists EmptyString, b. reflexivity. Qed.

Lemma substring_cons (c : ascii) (n h : string) : substring n h -> substring n (String c h).
Proof. intros [a [b ->]]. exists (String c a), b. reflexivity. Qed.

Lemma substring_app_l (v n h : string) : substring n h -> substring n (v ++ h).
Proof. intros [a [b ->]]. exists (v ++ a), b. apply str_append_assoc. Qed.

Lemma substring_refl (s : string) : substring s s.
Proof. exists EmptyString, EmptyString. simpl. induction s; simpl; congruence. Qed.

Lemma substring_trans (x y z : string) : substring x y -> substring y z -> substring x z.
Proof.
  intros [a [b ->]] [c [d ->]]. exists (c ++ a), (b ++ d).
  rewrite <- !str_append_assoc. reflexivity.
Qed.

Lemma substring_concat (s : string) (l : list string) :
  In s l -> substring s (String.concat "" l).
Proof.
  induction l as [| x l IH]; simpl; [tauto |].
  intros [-> | Hin].
  - destruct l as [| y l]; [apply substring_refl |].
    exists EmptyString, (String.concat "" (y :: l)). reflexivity.
  - destruct l as [| y l]; [destruct Hin |].
    simpl. apply substring_app_l. exact (IH Hin).
Qed.

Lemma prefix_lit_app (r c h : string) : is_prefix r c -> is_prefix r (c ++ h).
Proof. intros [b ->]. exists (b ++ h). symmetry. apply str_append_assoc. Qed.

Lemma prefix_lit_eq (l c n h : string) : l = c -> is_prefix n h -> is_prefix (l ++ n) (c ++ h).
Proof. intros <-. apply prefix_app. Qed.

Lemma substring_at_suffix (l n a h : string) :
  is_suffix l a -> is_prefix n h -> substring (l ++ n) (a ++ h).
Proof.
  intros [x ->] [b ->]. exists x, b.
  rewrite <- !str_append_assoc. reflexivity.
Qed.

(** In a rendered body whose holes are variables, find a needle that
    starts inside one template piece (a literal suffix of it) or at a
    hole, and goes on through holes and literal prefixes of pieces.
    Pieces are skipped whole; literal checks are run by [vm_compute]. *)
Ltac closed_string t :=
  tryif (match t with context [?x] => is_var x end) then fail else idtac.

Ltac lit_eq :=
  match goal with
  | |- ?l = ?c => closed_string l; closed_string c; vm_compute; reflexivity
  end.

Ltac lit_prefix :=
  match goal with
  | |- is_prefix ?r ?c =>
      closed_string r; closed_string c;
      exists (String.substring (String.length r) (String.length c - String.length r) c);
      lit_eq
  end.

Ltac lit_suffix :=
  match goal with
  | |- is_suffix ?l ?a =>
      closed_string l; closed_string a;
      exists (String.substring 0 (String.length a - String.length l) a);
      lit_eq
  end.

Ltac prefix_solve :=
  first [ apply prefix_nil | apply prefix_var
        | apply prefix_app; prefix_solve
        | apply prefix_lit_eq; [lit_eq | prefix_solve]
        | apply prefix_lit_app; lit_prefix | lit_prefix ].

Ltac substring_solve :=
  first [ solve [apply substring_of_prefix; prefix_solve]
        | solve [apply substring_at_suffix; [lit_suffix | prefix_solve]]
        | apply substring_app_l; substring_solve ].

Lemma create_product_html_contents (name : string) (price : float) (image_url : string)
    (qty : Z) :
  substring image_url (create_product_html name price image_url qty) /\
  substring name (create_product_html name price image_url qty) /\
  substring ("$" ++ py_format_2f price ++ "</p>") (create_product_html name price image_url qty) /\
  substring ("Qty: " ++ py_str_int qty ++ "</span>") (create_product_html name price image_url qty).
Proof.
  unfold create_product_html.
  generalize (py_format_2f price) (py_str_int qty). intros p q.
  repeat (match goal with |- _ /\ _ => split end); substring_solve.
Qed.

Lemma create_order_html_contents (products : list string) (total_qty : Z)
    (total_price : float) (email phone shipping order_id : string) :
  let h := create_order_html products total_qty total_price email phone shipping order_id in
  substring (String.concat "" products) h /\
  substring (py_str_int total_qty ++ " Item" ++ (if Z.eqb total_qty 1 then EmptyString else "s")
             ++ "</p>") h /\
  substring ("Total: $" ++ py_format_2f total_price ++ "</p>") h /\
  substring (">" ++ email ++ "</td>") h /\
  substring (">" ++ phone ++ "</td>") h /\
  substring (">" ++ shipping ++ "</td>") h /\
  substring order_id h.
Proof.
  cbv zeta. unfold create_order_html. cbv zeta.
  generalize (String.concat "" products) (py_str_int total_qty)
    (if Z.eqb total_qty 1 then EmptyString else "s") (py_format_2f total_price).
  intros ph q pl tp.
  repeat (match goal with |- _ /\ _ => split end); substring_solve.
Qed.

Lemma create_customer_html_contents (SUPPORT_EMAIL : option string) (products : list string)
    (total_qty : Z) (total_price : float) (order_id : string) :
  let h := create_customer_confirmation_html SUPPORT_EMAIL products total_qty total_price
             order_id in
  substring (String.concat "" products) h /\
  substring (py_str_int total_qty ++ " Item" ++ (if Z.eqb total_qty 1 then EmptyString else "s")
             ++ "</p>") h /\
  substring ("Total: $" ++ py_format_2f total_price ++ "</p>") h /\
  substring ("Contact us at $" ++ py_str_opt SUPPORT_EMAIL ++ "</p>") h /\
  substring order_id h.
Proof.
  cbv zeta. unfold create_customer_confirmation_html. cbv zeta.
  generalize (String.concat "" products) (py_str_int total_qty)
    (if Z.eqb total_qty 1 then EmptyString else "s") (py_format_2f total_price)
    (py_str_opt SUPPORT_EMAIL).
  intros ph q pl tp se.
  repeat (match goal with |- _ /\ _ => split end); substring_solve.
Qed.

Lemma product_html_in (r : OrderRequest) (k : string) (it : CartItem) :
  In (k, it) (items (order r)) ->
  In (create_product_html k (price it) (imageUrl it) (qty it)) (product_html_list r).
Proof.
  intros H. unfold product_html_list.
  exact (in_map (fun p => create_product_html (fst p) (price (snd p)) (imageUrl (snd p))
                                              (qty (snd p))) _ _ H).
Qed.

Lemma validated_cart_qty_ge3 (l : list string) (r : raw RawCart) (c : Cart) :
  validate_Cart l r = Ok c -> (3 <= totalQty c)%Z.
Proof.
  destruct r as [| | rc]; simpl; try discriminate.
  unfold validate_Cart_fields.
  destruct (validate_items (l ++ ["items"]) (r_items rc)) as [its |]; [| discriminate].
  destruct (validate_field (l ++ ["totalQty"]) _ _ _ _) as [q |] eqn:Eq; [| discriminate].
  destruct (validate_field (l ++ ["totalPrice"]) _ _ _ _) as [p |]; [| discriminate].
  intros H. injection H as <-. simpl.
  apply validate_field_ok in Eq as [_ [_ Hmin]].
  inversion Hmin as [| ? ? Hm _]. unfold validate_min_quantity in Hm.
  destruct (q <? 3)%Z eqn:Hq3; [discriminate |]. apply Z.ltb_ge in Hq3. exact Hq3.
Qed.

Lemma scaled_cents_nonneg (m : positive) (e : Z) : (0 <= scaled_cents m e)%Z.
Proof.
  unfold scaled_cents. destruct (Z.leb_spec 0 e).
  - pose proof (Z.pow_nonneg 2 e ltac:(lia)). nia.
  - unfold round_half_even_div.
    assert (Hq : (0 <= Zpos m * 100 / 2 ^ (- e))%Z).
    { apply Z.div_pos; [lia | apply Z.pow_pos_nonneg; lia]. }
    destruct (_ >? _)%Z; [lia |]. destruct (_ =? _)%Z; [destruct Z.odd |]; lia.
Qed.

Lemma py_str_int_nonneg_head (k : Z) (rest t : string) :
  (0 <= k)%Z -> py_str_int k ++ String "." rest <> String "-" t.
Proof.
  intros Hk. unfold py_str_int. destruct k as [| p | p]; [| | lia]; simpl; [discriminate |].
  unfold NilZero.string_of_uint.
  destruct (Pos.to_uint p); simpl; discriminate.
Qed.

(** X11: the owner's notification shows the customer's email (as the
    request has it, not lowered), phone and shipping text, each as the
    content of its table cell, and the order id, all inserted verbatim:
    no escaping is applied to the customer's input. *)
Theorem owner_email_fields_verbatim (r : OrderRequest) (order_id : string) :
  substring (">" ++ email r ++ "</td>") (owner_email_html r order_id) /\
  substring (">" ++ phone r ++ "</td>") (owner_email_html r order_id) /\
  substring (">" ++ shipping r ++ "</td>") (owner_email_html r order_id) /\
  substring order_id (owner_email_html r order_id).
Proof.
  unfold owner_email_html.
  destruct (create_order_html_contents (product_html_list r) (totalQty (order r))
              (totalPrice (order r)) (email r) (phone r) (shipping r) order_id)
    as (_ & _ & _ & He & Hp & Hs & Hi).
  auto.
Qed.

(** X12: every cart item is shown in both emails: its name and image URL
    verbatim, its [price] (not [pricePerUnit]) after a dollar sign as
    [format(price, '.2f')], and its quantity after "Qty: ". *)
Theorem item_shown_in_both_emails (SUPPORT_EMAIL : option string) (r : OrderRequest)
    (order_id k : string) (it : CartItem) (h : string) :
  In (k, it) (items (order r)) ->
  h = owner_email_html r order_id \/ h = customer_email_html SUPPORT_EMAIL r order_id ->
  substring k h /\ substring (imageUrl it) h /\
  substring ("$" ++ py_format_2f (price it) ++ "</p>") h /\
  substring ("Qty: " ++ py_str_int (qty it) ++ "</span>") h.
Proof.
  intros Hin Hh.
  assert (Hp : substring (create_product_html k (price it) (imageUrl it) (qty it)) h).
  { apply substring_trans with (String.concat "" (product_html_list r)).
    - apply substring_concat, product_html_in, Hin.
    - destruct Hh as [-> | ->].
      + unfold owner_email_html. apply create_order_html_contents.
      + unfold customer_email_html. apply create_customer_html_contents. }
  destruct (create_product_html_contents k (price it) (imageUrl it) (qty it))
    as (Hu & Hk & Hpr & Hq).
  repeat split; eapply substring_trans; eassumption.
Qed.

Lemma item_shown_in_both_emails_witness :
  substring "Basil" (customer_email_html None (sample_request "") "ORD-1").
Proof.
  refine (proj1 (item_shown_in_both_emails None (sample_request "") "ORD-1" "Basil"
                   {| qty := 1; price := 5.0; pricePerUnit := 5.0;
                      imageUrl := "/img/item.png" |} _ _ _)).
  - vm_compute. right. left. reflexivity.
  - right. reflexivity.
Defined.

(** X13: the customer's confirmation ends with "Contact us at $" followed
    by [SUPPORT_EMAIL]: the [$] of the f-string is printed, and an unset
    [SUPPORT_EMAIL] is printed as "None". *)
Theorem customer_contact_line (SUPPORT_EMAIL : option string) (r : OrderRequest)
    (order_id : string) :
  substring ("Contact us at $" ++ py_str_opt SUPPORT_EMAIL ++ "</p>")
    (customer_email_html SUPPORT_EMAIL r order_id) /\
  (SUPPORT_EMAIL = None ->
   substring "Contact us at $None</p>" (customer_email_html SUPPORT_EMAIL r order_id)).
Proof.
  unfold customer_email_html.
  destruct (create_customer_html_contents SUPPORT_EMAIL (product_html_list r)
              (totalQty (order r)) (totalPrice (order r)) order_id) as (_ & _ & _ & Hc & _).
  split; [exact Hc |]. intros ->. exact Hc.
Qed.

(** X14: for an order whose cart passed validation, both emails give the
    total quantity with the plural label "<n> Items" (the singular form is
    unreachable, as [totalQty >= 3]) and the total price after "Total: $". *)
Theorem validated_order_totals_shown (l : list string) (rc : raw RawCart)
    (SUPPORT_EMAIL : option string) (r : OrderRequest) (order_id : string) :
  validate_Cart l rc = Ok (order r) ->
  substring (py_str_int (totalQty (order r)) ++ " Items</p>") (owner_email_html r order_id) /\
  substring (py_str_int (totalQty (order r)) ++ " Items</p>")
    (customer_email_html SUPPORT_EMAIL r order_id) /\
  substring ("Total: $" ++ py_format_2f (totalPrice (order r)) ++ "</p>")
    (owner_email_html r order_id) /\
  substring ("Total: $" ++ py_format_2f (totalPrice (order r)) ++ "</p>")
    (customer_email_html SUPPORT_EMAIL r order_id).
Proof.
  intros Hv. apply validated_cart_qty_ge3 in Hv.
  assert (H1 : Z.eqb (totalQty (order r)) 1 = false) by (apply Z.eqb_neq; lia).
  unfold owner_email_html, customer_email_html.
  destruct (create_order_html_contents (product_html_list r) (totalQty (order r))
              (totalPrice (order r)) (email r) (phone r) (shipping r) order_id)
    as (_ & Ho & Hto & _).
  destruct (create_customer_html_contents SUPPORT_EMAIL (product_html_list r)
              (totalQty (order r)) (totalPrice (order r)) order_id) as (_ & Hc & Htc & _).
  rewrite H1 in Ho, Hc. auto.
Qed.

Lemma validated_order_totals_shown_witness :
  substring "3 Items</p>" (owner_email_html (sample_request "") "ORD-1").
Proof.
  refine (proj1 (validated_order_totals_shown ["order"] (RVal sample_raw_cart) None
                   (sample_request "") "ORD-1" _)).
  vm_compute. reflexivity.
Defined.

(** X15: a price that passed the [ge=0] check is rendered by
    [format(x, '.2f')] with a leading minus sign exactly when it is the
    negative zero [-0.0], which the check accepts ("-0.00"). *)
Theorem nonneg_price_format_sign (x : float) :
  float_ge0 x = None ->
  ((exists t, py_format_2f x = String "-" t) <-> x = (-0)%float).
Proof.
  unfold float_ge0. destruct (PrimFloat.leb 0 x) eqn:Hle; [intros _ | discriminate].
  rewrite leb_spec in Hle.
  split.
  - intros [t Ht]. rewrite <- (SF2Prim_Prim2SF x).
    unfold py_format_2f in Ht.
    destruct (Prim2SF x) as [s | s | | s m e]; simpl in Hle.
    + destruct s; [reflexivity | discriminate].
    + destruct s; discriminate.
    + discriminate.
    + destruct s; [discriminate |]. simpl in Ht.
      exfalso. apply (py_str_int_nonneg_head (scaled_cents m e / 100)
                        (pad2 (scaled_cents m e mod 100)) t); [| exact Ht].
      apply Z.div_pos; [apply scaled_cents_nonneg | lia].
  - intros ->. exists "0.00". reflexivity.
Qed.

Lemma nonneg_price_format_sign_witness :
  float_ge0 (-0)%float = None /\ (exists t, py_format_2f (-0)%float = String "-" t).
Proof.
  split; [vm_compute; reflexivity |].
  apply (proj2 (nonneg_price_format_sign (-0)%float ltac:(vm_compute; reflexivity))).
  reflexivity.
Defined.
